(** * DNS-over-HTTPS (package doh): question encoding, symbol tables,
      client and server protocol.

    A shallow embedding of [doh.go], the server ([Server.ServeHTTP]) and the
    client ([Client.Do]).  Go strings are byte strings and are modelled by
    [string]; Go's [int] is the 64-bit signed integer and is modelled by [Z]
    together with its range; [url.Values] and [http.Header] are maps from
    keys to lists of values and are modelled by [gmap string (list string)].

    The library functions the package calls ([strconv.Itoa], [strconv.Atoi],
    [strconv.ParseBool], [strings.HasPrefix], [Values.Get], [Header.Get],
    [json.Unmarshal] into an [int]) are modelled after the Go standard
    library, in the modules [strconv], [url], [http] and [json] below. *)

From Stdlib Require Import ZArith Ascii String List Lia.
From stdpp Require Import base gmap strings list fin_maps.

Local Open Scope Z_scope.

#[local] Set Warnings "-register-all".

(** ** Bytes and strings *)

Definition byte_val (c : ascii) : Z := Z.of_N (N_of_ascii c).

Definition byte_of (n : Z) : ascii := ascii_of_N (Z.to_N n).

(** ['0' <= c && c <= '9'] *)
Definition is_digit (c : ascii) : bool :=
  (48 <=? byte_val c) && (byte_val c <=? 57).

(** [s[len(s)-1]], when [s] is not empty. *)
Definition last_byte (s : string) : option ascii :=
  String.get (Nat.pred (String.length s)) s.

(** ** Package strconv *)

Module strconv.

(** [strconv.IntSize] on the 64-bit platforms. *)
Definition intSize : Z := 64.
Definition maxUint64 : Z := 2 ^ 64 - 1.
Definition maxInt : Z := 2 ^ (intSize - 1) - 1.
Definition minInt : Z := - 2 ^ (intSize - 1).

(** The two kinds of [*strconv.NumError]. *)
Inductive NumError : Type := ErrSyntax | ErrRange.

(** [formatBits] in base 10: the digits of [u] are written in front of
    [acc], least significant first.

      for u >= 10 { q := u / 10; a[i] = byte('0' + u - q*10); u = q }
      a[i] = byte('0' + u)
*)
Fixpoint formatBits (fuel : nat) (u : Z) (acc : string) : string :=
  match fuel with
  | O => String (byte_of (48 + u)) acc
  | S fuel' =>
      if 10 <=? u
      then formatBits fuel' (u / 10) (String (byte_of (48 + u mod 10)) acc)
      else String (byte_of (48 + u)) acc
  end.

(** The loop runs once per decimal digit; the binary size bounds it. *)
Definition formatUint (u : Z) : string :=
  formatBits (Z.to_nat (Z.log2 u)) u EmptyString.

(** [FormatInt(i, 10)] *)
Definition FormatInt (i : Z) : string :=
  if i <? 0 then String "-" (formatUint (- i)) else formatUint i.

(** [Itoa(i)] is [FormatInt(int64(i), 10)]. *)
Definition Itoa (i : Z) : string := FormatInt i.

(** The smallest number such that [cutoff * 10 > maxUint64]. *)
Definition cutoff : Z := maxUint64 / 10 + 1.

(** The scanning loop of [ParseUint(s, 10, 64)]: a byte that is no digit
    ends it with a syntax error and value 0, an overflow ends it with a
    range error and the largest value; whichever is met first. *)
Fixpoint parseUintLoop (s : string) (n : Z) : Z * option NumError :=
  match s with
  | EmptyString => (n, None)
  | String c s' =>
      if is_digit c then
        let d := byte_val c - 48 in
        if cutoff <=? n then (maxUint64, Some ErrRange)
        else
          let n1 := n * 10 + d in
          if maxUint64 <? n1 then (maxUint64, Some ErrRange)
          else parseUintLoop s' n1
      else (0, Some ErrSyntax)
  end.

Definition ParseUint (s : string) : Z * option NumError :=
  match s with
  | EmptyString => (0, Some ErrSyntax)
  | _ => parseUintLoop s 0
  end.

(** [ParseInt(s, 10, 0)] *)
Definition ParseInt (s : string) : Z * option NumError :=
  match s with
  | EmptyString => (0, Some ErrSyntax)
  | String c s' =>
      let neg := Ascii.eqb c "-" in
      let s1 := if Ascii.eqb c "+" || neg then s' else s in
      match ParseUint s1 with
      | (_, Some ErrSyntax) => (0, Some ErrSyntax)
      | (un, _) =>
          let cut := 2 ^ (intSize - 1) in
          if negb neg && (cut <=? un) then (cut - 1, Some ErrRange)
          else if neg && (cut <? un) then (- cut, Some ErrRange)
          else (if neg then - un else un, None)
      end
  end.

(** [Atoi(s)] is [ParseInt(s, 10, 0)] converted to [int]. *)
Definition Atoi (s : string) : Z * option NumError := ParseInt s.

(** [ParseBool]: the second component tells whether an error is returned. *)
Definition ParseBool (str : string) : bool * bool :=
  if bool_decide (str ∈ ["1"; "t"; "T"; "TRUE"; "true"; "True"])
  then (true, false)
  else if bool_decide (str ∈ ["0"; "f"; "F"; "FALSE"; "false"; "False"])
  then (false, false)
  else (false, true).

End strconv.

(** Digit strings and their values. *)

Fixpoint all_digits (s : string) : bool :=
  match s with
  | EmptyString => true
  | String c s' => is_digit c && all_digits s'
  end.

(** The value of a digit string read after the prefix value [n], without
    any bound. *)
Fixpoint decval (s : string) (n : Z) : Z :=
  match s with
  | EmptyString => n
  | String c s' => decval s' (n * 10 + (byte_val c - 48))
  end.

(** The bytes [Itoa] writes: the digits and the minus sign. *)
Definition plain (c : ascii) : bool := is_digit c || Ascii.eqb c "-".

Fixpoint all_plain (s : string) : bool :=
  match s with
  | EmptyString => true
  | String c s' => plain c && all_plain s'
  end.

(** ** Packages strings, net/url and net/http *)

Module strings.
(** [strings.HasPrefix(s, prefix)] *)
Definition HasPrefix (s prefix : string) : bool := String.prefix prefix s.
End strings.

Module url.

(** [url.Values], a [map[string][]string]. *)
Abbreviation Values := (gmap string (list string)).

(** [Values.Get]: the first value of the key, the empty string when the
    key has no value. *)
Definition Get (v : Values) (key : string) : string :=
  match v !! key with
  | Some (x :: _) => x
  | _ => EmptyString
  end.

(** The fields of [url.URL] the package reads.  [Query] stands for the
    parameters [URL.Query()] parses out of [RawQuery], and for the ones
    [Values.Encode()] writes into it. *)
Record URL : Type := {
  Scheme : string;
  User : option string;
  Host : string;
  Path : string;
  Query : Values
}.

End url.

Module http.

(** [http.Header], a [map[string][]string] keyed by canonical header names. *)
Abbreviation MIMEHeader := (gmap string (list string)).

(** [Header.Get]: the first value of the key, the empty string when the key
    has no value.  Go first brings the key to its canonical form; the one
    key the package asks for, "Accept", is canonical as written. *)
Definition Get (h : MIMEHeader) (key : string) : string :=
  match h !! key with
  | Some (x :: _) => x
  | _ => EmptyString
  end.

Definition MethodGet : string := "GET".

Definition StatusOK : Z := 200.
Definition StatusBadRequest : Z := 400.
Definition StatusForbidden : Z := 403.
Definition StatusUnsupportedMediaType : Z := 415.
Definition StatusInternalServerError : Z := 500.

(** The fields of [http.Request] the package reads or sets. *)
Record Request : Type := {
  Method : string;
  URL : url.URL;
  Header : MIMEHeader;
  Host : string
}.

(** The fields of [http.Response] the package reads. *)
Record Response : Type := {
  StatusCode : Z;
  Body : string
}.

End http.

Module json.

(** The white space of JSON: space, tab, line feed, carriage return. *)
Definition is_space (c : ascii) : bool :=
  bool_decide (byte_val c ∈ [32; 9; 10; 13]).

Fixpoint trim_left (s : string) : string :=
  match s with
  | String c s' => if is_space c then trim_left s' else s
  | EmptyString => EmptyString
  end.

Fixpoint trim_right (s : string) : string :=
  match s with
  | EmptyString => EmptyString
  | String c s' =>
      match trim_right s' with
      | EmptyString => if is_space c then EmptyString else String c EmptyString
      | t => String c t
      end
  end.

(** The bytes of a value without the white space around it. *)
Definition trim (s : string) : string := trim_right (trim_left s).

(** A JSON number without fraction and exponent: an optional minus sign,
    then either the digit 0 alone or a digit other than 0 followed by
    digits. *)
Definition int_literal (s : string) : bool :=
  let body := match s with
              | String c s' => if Ascii.eqb c "-" then s' else s
              | EmptyString => s
              end in
  match body with
  | EmptyString => false
  | String c rest =>
      if Ascii.eqb c "0" then bool_decide (rest = EmptyString)
      else is_digit c && all_digits rest
  end.

(** [json.Unmarshal(b, &x)] for [x] of type [int], as [(x', failed)]: the
    literal [null] leaves [x] as it is, an integer literal that [ParseInt]
    reads without error is stored, and every other input fails (with a
    [*json.SyntaxError] or a [*json.UnmarshalTypeError]) and leaves [x]. *)
Definition Unmarshal_int (b : string) (x : Z) : Z * bool :=
  let item := trim b in
  if String.eqb item "null" then (x, false)
  else if int_literal item then
    match strconv.ParseInt item with
    | (n, None) => (n, false)
    | (_, Some _) => (x, true)
    end
  else (x, true).

End json.

(** The [error] values of the package. *)
Inductive error : Type :=
| errorString (text : string)
    (* errors.New(text) *)
| JSONError
    (* an error of encoding/json *)
| TransportError (text : string) (netError : option bool)
    (* an error of the HTTP client; [Some t] when it implements [net.Error],
       with [Timeout()] = [t] *)
| ClientError (msg : string) (err : option error)
    (* &ClientError{msg, err} *)
| HTTPError (code : Z).
    (* HTTPError(code) *)

(** ** doh.go *)

(** *** Return codes *)

Definition Success : Z := 0.
Definition FormatError : Z := 1.
Definition ServerFailure : Z := 2.
Definition NameError : Z := 3.
Definition NotImplemented : Z := 4.
Definition Refused : Z := 5.

(** *** Record types *)

Definition A : Z := 1.
Definition NS : Z := 2.
Definition CNAME : Z := 5.
Definition SOA : Z := 6.
Definition PTR : Z := 12.
Definition HINFO : Z := 13.
Definition MX : Z := 15.
Definition TXT : Z := 16.
Definition RP : Z := 17.
Definition AFSDB : Z := 18.
Definition SIG : Z := 24.
Definition KEY : Z := 25.
Definition AAAA : Z := 28.
Definition LOC : Z := 29.
Definition SRV : Z := 33.
Definition NAPTR : Z := 35.
Definition KX : Z := 36.
Definition CERT : Z := 37.
Definition DNAME : Z := 39.
Definition OPT : Z := 41.
Definition APL : Z := 42.
Definition DS : Z := 43.
Definition SSHFP : Z := 44.
Definition IPSECKEY : Z := 45.
Definition RRSIG : Z := 46.
Definition NSEC : Z := 47.
Definition DNSKEY : Z := 48.
Definition DHCID : Z := 49.
Definition NSEC3 : Z := 50.
Definition NSEC3PARAM : Z := 51.
Definition TLSA : Z := 52.
Definition HIP : Z := 55.
Definition CDS : Z := 59.
Definition CDNSKEY : Z := 60.
Definition OPENPGPKEY : Z := 61.
Definition SPF : Z := 99.
Definition TKEY : Z := 249.
Definition TSIG : Z := 250.
Definition IXFR : Z := 251.
Definition AXFR : Z := 252.
Definition ANY : Z := 255.
Definition URI : Z := 256.
Definition CAA : Z := 257.
Definition TA : Z := 32768.
Definition DLV : Z := 32769.

(** The literal of [rrNameToInt], entry by entry. *)
Definition rrTable : list (string * Z) :=
  [ ("A", A); ("NS", NS); ("CNAME", CNAME); ("SOA", SOA); ("PTR", PTR);
    ("HINFO", HINFO); ("MX", MX); ("TXT", TXT); ("RP", RP); ("AFSDB", AFSDB);
    ("SIG", SIG); ("KEY", KEY); ("AAAA", AAAA); ("LOC", LOC); ("SRV", SRV);
    ("NAPTR", NAPTR); ("KX", KX); ("CERT", CERT); ("DNAME", DNAME);
    ("OPT", OPT); ("APL", APL); ("DS", DS); ("SSHFP", SSHFP);
    ("IPSECKEY", IPSECKEY); ("RRSIG", RRSIG); ("NSEC", NSEC);
    ("DNSKEY", DNSKEY); ("DHCID", DHCID); ("NSEC3", NSEC3);
    ("NSEC3PARAM", NSEC3PARAM); ("TLSA", TLSA); ("HIP", HIP); ("CDS", CDS);
    ("CDNSKEY", CDNSKEY); ("OPENPGPKEY", OPENPGPKEY); ("SPF", SPF);
    ("TKEY", TKEY); ("TSIG", TSIG); ("IXFR", IXFR); ("AXFR", AXFR);
    ("ANY", ANY); ("URI", URI); ("CAA", CAA); ("TA", TA); ("DLV", DLV) ].

Definition rrNameToInt : gmap string Z := list_to_map rrTable.

(** [RecordTypeFromString] *)
Definition RecordTypeFromString (name : string) : Z :=
  match rrNameToInt !! name with
  | None => -1
  | Some rr => rr
  end.

(** [for k, v := range m]: Go visits the entries of a map in an order it
    does not specify; [iter] is one such order. *)
Definition map_range {V : Type} (m : gmap string V) (iter : list (string * V)) : Prop :=
  iter ≡ₚ map_to_list m.

(** The loop of [RecordType.String] over the entries in the order [iter]. *)
Fixpoint range_find (rr : Z) (iter : list (string * Z)) : option string :=
  match iter with
  | [] => None
  | (k, v) :: rest => if rr =? v then Some k else range_find rr rest
  end.

(** [RecordType.String], when the range over [rrNameToInt] visits [iter]. *)
Definition RecordType_String (iter : list (string * Z)) (rr : Z) : string :=
  match range_find rr iter with
  | Some k => k
  | None => "unknown(" +:+ strconv.Itoa rr +:+ ")"
  end.

(** The double quote byte. *)
Definition quote : ascii := "034"%char.

(** [RecordType.UnmarshalJSON]: the receiver [*rr] before the call and the
    bytes [b] give the receiver after the call and the error. *)
Definition UnmarshalJSON (rr : Z) (b : string) : Z * option error :=
  if (String.length b <? 1)%nat
  then (rr, Some (errorString "unexpected end of JSON input"))
  else if bool_decide (String.get 0 b = Some quote)
          && bool_decide (last_byte b = Some quote)
  then
    if (String.length b <? 3)%nat then (0, None)
    else
      match rrNameToInt !! String.substring 1 (String.length b - 2) b with
      | None => (rr, Some (errorString "unknown record type"))
      | Some x => (x, None)
      end
  else
    match json.Unmarshal_int b 0 with
    | (_, true) => (rr, Some JSONError)
    | (x, false) => (x, None)
    end.

(** The JSON text of a string without escapes: [s] between double quotes. *)
Definition quoted (s : string) : string :=
  String quote (s +:+ String quote EmptyString).

(** *** Questions, records and answers *)

Record Record_ : Type := {
  Record_Name : string;
  Record_Type : Z;
  Record_TTL : Z;
  Record_Data : string
}.

Record Question : Type := {
  Name : string;
  Type_ : Z;
  DisableDNSSEC : bool;
  EDNSClientSubnet : string
}.

Record Answer : Type := {
  Status : Z;
  Truncated : bool;
  RecursionDesired : bool;
  RecursionAvailable : bool;
  DNSSECValidated : bool;
  DNSSECDisabled : bool;
  Answer_Question : list Question;
  Answer_Answer : list Record_;
  Authority : list Record_;
  Additional : list Record_;
  Comment : string;
  EdnsClientSubnet : string
}.

(** [QuestionFromValues] *)
Definition QuestionFromValues (q : url.Values) : Question :=
  let rr := fst (strconv.Atoi (url.Get q "type")) in
  let rr := if rr <? 1 then 1 else rr in
  let req := {| Name := url.Get q "name";
                Type_ := rr;
                DisableDNSSEC := false;
                EDNSClientSubnet := url.Get q "edns_client_subnet" |} in
  {| Name := Name req;
     Type_ := Type_ req;
     DisableDNSSEC := fst (strconv.ParseBool (url.Get q "cd"));
     EDNSClientSubnet := EDNSClientSubnet req |}.

(** [Question.Values] *)
Definition Values (r : Question) : url.Values :=
  let q : url.Values := {[ "name" := [Name r] ]} in
  let q := if 0 <? Type_ r
           then <[ "type" := [strconv.Itoa (Type_ r)] ]> q
           else <[ "type" := ["1"] ]> q in
  let q := if DisableDNSSEC r then <[ "cd" := ["1"] ]> q else q in
  let q := if negb (String.eqb (EDNSClientSubnet r) "")
           then <[ "edns_client_subnet" := [EDNSClientSubnet r] ]> q
           else q in
  q.

(** [IsFQDN] *)
Definition IsFQDN (name : string) : bool :=
  if (1 <? String.length name)%nat && bool_decide (last_byte name = Some "."%char)
  then true
  else false.

(** [FQDN] *)
Definition FQDN (name : string) : string :=
  if negb (IsFQDN name) then name +:+ "." else name.

(** [strings.Contains(s, substr)], as a proposition. *)
Definition contains (s substr : string) : Prop :=
  exists before rest, s = before +:+ substr +:+ rest.

(** [strings.ToLower] on the ASCII letters. *)
Definition lower (c : ascii) : ascii :=
  if (65 <=? byte_val c) && (byte_val c <=? 90) then byte_of (byte_val c + 32) else c.

Fixpoint ToLower (s : string) : string :=
  match s with
  | EmptyString => EmptyString
  | String c s' => String (lower c) (ToLower s')
  end.

(** ** The server *)

Module server.

(** [HandlerFunc]: a function from a [*Question] to an [*Answer]; [None] is
    the nil answer. *)
Definition HandlerFunc : Type := Question -> option Answer.

Record Server : Type := {
  Handler : option HandlerFunc;
  AllowHTTP : bool
}.

(** What a handler does to its [http.ResponseWriter], call by call. *)
Inductive WriterCall : Type :=
| WriteHeader (statusCode : Z)
    (* w.WriteHeader(statusCode) *)
| Header_Set (key value : string)
    (* w.Header().Set(key, value) *)
| Encode (res : Answer).
    (* json.NewEncoder(w).Encode(res) *)

(** [Server.ServeHTTP], as the calls it makes on [w], in order. *)
Definition ServeHTTP (s : Server) (r : http.Request) : list WriterCall :=
  if negb (String.eqb (http.Method r) http.MethodGet)
  then [WriteHeader http.StatusBadRequest]
  else if String.eqb (http.Get (http.Header r) "Accept") ""
  then [WriteHeader http.StatusBadRequest]
  else if strings.HasPrefix (http.Get (http.Header r) "Accept") "application/dns-json"
  then [WriteHeader http.StatusUnsupportedMediaType]
  else
    match Handler s with
    | None => [WriteHeader http.StatusInternalServerError]
    | Some handler =>
        if negb (String.eqb (url.Scheme (http.URL r)) "https") && negb (AllowHTTP s)
        then [WriteHeader http.StatusForbidden]
        else
          let req := QuestionFromValues (url.Query (http.URL r)) in
          if String.eqb (Name req) ""
          then [WriteHeader http.StatusBadRequest]
          else
            let res := handler req in
            let res := match res with
                       | None => {| Status := ServerFailure;
                                    Truncated := false;
                                    RecursionDesired := false;
                                    RecursionAvailable := false;
                                    DNSSECValidated := false;
                                    DNSSECDisabled := false;
                                    Answer_Question := [];
                                    Answer_Answer := [];
                                    Authority := [];
                                    Additional := [];
                                    Comment := "";
                                    EdnsClientSubnet := "" |}
                       | Some a => a
                       end in
            [ Header_Set "Content-Type" "application/dns-json; charset=utf-8";
              WriteHeader http.StatusOK;
              Encode res ]
    end.

(** The status a reply carries: the code of its [WriteHeader] call. *)
Fixpoint status (calls : list WriterCall) : option Z :=
  match calls with
  | [] => None
  | WriteHeader code :: _ => Some code
  | _ :: rest => status rest
  end.

(** The value encoded into the body of a reply, if any. *)
Fixpoint body (calls : list WriterCall) : option Answer :=
  match calls with
  | [] => None
  | Encode res :: _ => Some res
  | _ :: rest => body rest
  end.

(** The six validations of [ServeHTTP] in the order of the source, each
    with the status sent when it fails: [(passes, status)]. *)
Definition validations (s : Server) (r : http.Request) : list (bool * Z) :=
  [ (String.eqb (http.Method r) http.MethodGet, http.StatusBadRequest);
    (negb (String.eqb (http.Get (http.Header r) "Accept") ""), http.StatusBadRequest);
    (negb (strings.HasPrefix (http.Get (http.Header r) "Accept") "application/dns-json"),
     http.StatusUnsupportedMediaType);
    (bool_decide (is_Some (Handler s)), http.StatusInternalServerError);
    (String.eqb (url.Scheme (http.URL r)) "https" || AllowHTTP s, http.StatusForbidden);
    (negb (String.eqb (Name (QuestionFromValues (url.Query (http.URL r)))) ""),
     http.StatusBadRequest) ].

(** The validations in the words of the specification: the second one asks
    that the Accept header be present, the others are as above. *)
Definition validations_as_specified (s : Server) (r : http.Request) : list (bool * Z) :=
  [ (String.eqb (http.Method r) http.MethodGet, 400);
    (bool_decide (is_Some (http.Header r !! "Accept")), 400);
    (negb (strings.HasPrefix (http.Get (http.Header r) "Accept") "application/dns-json"), 415);
    (bool_decide (is_Some (Handler s)), 500);
    (String.eqb (url.Scheme (http.URL r)) "https" || AllowHTTP s, 403);
    (negb (String.eqb (Name (QuestionFromValues (url.Query (http.URL r)))) ""), 400) ].

(** The status of the first validation that fails, [None] when all pass. *)
Fixpoint first_failing (checks : list (bool * Z)) : option Z :=
  match checks with
  | [] => None
  | (passes, code) :: rest => if passes then first_failing rest else Some code
  end.

End server.

(** ** The client *)

Module client.

Definition UserAgent : string := "doh/1.0.0 (+https://github.com/jamescun/doh)".

(** [ClientError.Cause] *)
Definition Cause (ce : error) : option error :=
  match ce with
  | ClientError _ err => err
  | _ => None
  end.

(** The [Error] methods. *)
Fixpoint Error (e : error) : string :=
  match e with
  | errorString text => text
  | JSONError => "json: cannot unmarshal"
  | TransportError text _ => text
  | ClientError msg err =>
      match err with
      | Some e' => msg +:+ ": " +:+ Error e'
      | None => msg
      end
  | HTTPError code => "HTTP Error " +:+ strconv.Itoa code
  end.

Section Do.

(** [*http.Client]: the clients there are, the default one, and what the
    [Do] method of a client answers to a request. *)
Variable HTTPClientRef : Type.
Variable DefaultClient : HTTPClientRef.
Variable HTTPClient_Do : HTTPClientRef -> http.Request -> http.Response + error.

(** [unmarshalJSON(w.Body, &x)] for [x] an [Answer]. *)
Variable unmarshalJSON : string -> Answer + error.

Record Client : Type := {
  Addr : option url.URL;
  HTTPClient : option HTTPClientRef;
  AllowHTTP : bool
}.

(** What a call of [Do] leaves: its three results, the client [*c] after
    the call, and the requests it has handed to the HTTP client. *)
Record Outcome : Type := {
  res : option Answer;
  rtt : Z;
  err : option error;
  after : Client;
  sent : list http.Request
}.

(** The client [c.HTTPClient] after line 55: the default one when the field
    is nil. *)
Definition transport (c : Client) : HTTPClientRef :=
  match HTTPClient c with
  | None => DefaultClient
  | Some h => h
  end.

(** The request [r] that [Do] builds for the address [*c.Addr]. *)
Definition request (addr : url.URL) (q : Question) : http.Request :=
  {| http.Method := http.MethodGet;
     http.URL := {| url.Scheme := url.Scheme addr;
                    url.User := url.User addr;
                    url.Host := url.Host addr;
                    url.Path := url.Path addr;
                    url.Query := Values q |};
     http.Header := {[ "Accept" := ["application/dns-json"];
                       "User-Agent" := [UserAgent] ]};
     http.Host := url.Host addr |}.

(** [netErr, ok := err.(net.Error)] holds and [netErr.Timeout()] is true. *)
Definition isNetTimeout (e : error) : bool :=
  match e with
  | TransportError _ (Some true) => true
  | _ => false
  end.

(** [Client.Do]; [t1] and [t2] are the two readings of [time.Now()], at
    entry and in the deferred function. *)
Definition Do (c : Client) (q : Question) (t1 t2 : Z) : Outcome :=
  let rtt := t2 - t1 in
  match Addr c with
  | None =>
      {| res := None; rtt := rtt;
         err := Some (ClientError "no server configured" None);
         after := c; sent := [] |}
  | Some addr =>
      if negb (String.eqb (url.Scheme addr) "https") && negb (AllowHTTP c)
      then {| res := None; rtt := rtt;
              err := Some (ClientError "https required" None);
              after := c; sent := [] |}
      else
        let c' := {| Addr := Addr c;
                     HTTPClient := Some (transport c);
                     AllowHTTP := AllowHTTP c |} in
        let r := request addr q in
        match HTTPClient_Do (transport c) r with
        | inr e =>
            let e' := if isNetTimeout e
                      then ClientError "server timeout" (Some e)
                      else e in
            {| res := None; rtt := rtt; err := Some e'; after := c'; sent := [r] |}
        | inl w =>
            if http.StatusCode w =? http.StatusOK then
              match unmarshalJSON (http.Body w) with
              | inr e =>
                  {| res := None; rtt := rtt; err := Some e; after := c'; sent := [r] |}
              | inl x =>
                  {| res := Some x; rtt := rtt; err := None; after := c'; sent := [r] |}
              end
            else
              {| res := None; rtt := rtt;
                 err := Some (HTTPError (http.StatusCode w));
                 after := c'; sent := [r] |}
        end
  end.

End Do.

Arguments Addr {HTTPClientRef} _.
Arguments HTTPClient {HTTPClientRef} _.
Arguments AllowHTTP {HTTPClientRef} _.
Arguments res {HTTPClientRef} _.
Arguments rtt {HTTPClientRef} _.
Arguments err {HTTPClientRef} _.
Arguments after {HTTPClientRef} _.
Arguments sent {HTTPClientRef} _.

End client.

(** ** The rest of doh.go: return codes as text *)

Definition YXDomain : Z := 6.
Definition YXRrset : Z := 7.
Definition NXRrset : Z := 8.
Definition NotAuth : Z := 9.
Definition NotZone : Z := 10.
Definition BadSig : Z := 16.
Definition BadVers : Z := 16.
Definition BadKey : Z := 17.
Definition BadTime : Z := 18.
Definition BadMode : Z := 19.
Definition BadName : Z := 20.
Definition BadAlg : Z := 21.
Definition BadTrunc : Z := 22.
Definition BadCookie : Z := 23.

(** [ReturnCode.String]: the switch, case by case. *)
Definition ReturnCode_String (rc : Z) : string :=
  if rc =? Success then "NOERROR"
  else if rc =? FormatError then "FORMERR"
  else if rc =? ServerFailure then "SERVFAIL"
  else if rc =? NameError then "NXDOMAIN"
  else if rc =? NotImplemented then "NOTIMP"
  else if rc =? Refused then "REFUSED"
  else if rc =? YXDomain then "YXDOMAIN"
  else if rc =? YXRrset then "YXRRSET"
  else if rc =? NXRrset then "NXRRSET"
  else if rc =? NotAuth then "NOTAUTH"
  else if rc =? NotZone then "NOTZONE"
  else if rc =? BadSig then "BADSIG"
  else if rc =? BadKey then "BADKEY"
  else if rc =? BadTime then "BADTIME"
  else if rc =? BadMode then "BADMODE"
  else if rc =? BadAlg then "BADALG"
  else if rc =? BadTrunc then "BADTRUNC"
  else if rc =? BadCookie then "BADCOOKIE"
  else "UNKNOWN".

(** The codes the switch of [ReturnCode.String] has a case for. *)
Definition handled (rc : Z) : Prop :=
  0 <= rc <= 10 \/ 16 <= rc <= 19 \/ 21 <= rc <= 23.

(** The constants of the [const] block of return codes, by name. *)
Definition returnCodes : list (string * Z) :=
  [ ("Success", Success); ("FormatError", FormatError);
    ("ServerFailure", ServerFailure); ("NameError", NameError);
    ("NotImplemented", NotImplemented); ("Refused", Refused);
    ("YXDomain", YXDomain); ("YXRrset", YXRrset); ("NXRrset", NXRrset);
    ("NotAuth", NotAuth); ("NotZone", NotZone); ("BadSig", BadSig);
    ("BadVers", BadVers); ("BadKey", BadKey); ("BadTime", BadTime);
    ("BadMode", BadMode); ("BadName", BadName); ("BadAlg", BadAlg);
    ("BadTrunc", BadTrunc); ("BadCookie", BadCookie) ].

(** [RecordType.String] for the range order of [map_to_list]. *)
Definition RecordType_name (rr : Z) : string :=
  RecordType_String (map_to_list rrNameToInt) rr.

(** The two checks of [Client.Do] before the request, as one condition: an
    address is configured, and its scheme is "https" or plaintext is
    allowed. *)
Definition passes {HTTPClientRef : Type} (c : client.Client HTTPClientRef) : bool :=
  match client.Addr c with
  | None => false
  | Some addr => String.eqb (url.Scheme addr) "https" || client.AllowHTTP c
  end.

(** ** The package-level client *)

Module pkg.

Section Do.

Variable HTTPClientRef : Type.
(** [http.DefaultClient] *)
Variable http_DefaultClient : HTTPClientRef.
Variable HTTPClient_Do : HTTPClientRef -> http.Request -> http.Response + error.
Variable unmarshalJSON : string -> Answer + error.

(** The value [DefaultClient] points to when the package is loaded. *)
Definition DefaultClient : client.Client HTTPClientRef :=
  {| client.Addr := Some {| url.Scheme := "https";
                            url.User := None;
                            url.Host := "dns.google.com";
                            url.Path := "/resolve";
                            url.Query := ∅ |};
     client.HTTPClient := Some http_DefaultClient;
     client.AllowHTTP := false |}.

(** The function [Do]: [DefaultClient.Do(q)], on the value [dc] that
    [DefaultClient] points to at the call. *)
Definition Do (dc : client.Client HTTPClientRef) (q : Question) (t1 t2 : Z)
  : client.Outcome HTTPClientRef :=
  client.Do HTTPClientRef http_DefaultClient HTTPClient_Do unmarshalJSON dc q t1 t2.

(** The value [DefaultClient] points to after the calls [Do(q)] for the
    questions [qs], one after the other. *)
Fixpoint after_calls (dc : client.Client HTTPClientRef) (qs : list (Question * Z * Z))
  : client.Client HTTPClientRef :=
  match qs with
  | [] => dc
  | (q, t1, t2) :: rest => after_calls (client.after (Do dc q t1 t2)) rest
  end.

End Do.

End pkg.

(** ** cmd/doh/main.go *)

Module cmd.

(** The byte '\n'. *)
Definition nl : string := String "010"%char EmptyString.

(** The verb [%t]. *)
Definition fmt_t (b : bool) : string := if b then "true" else "false".

(** The command-line flags after [flag.Parse()]. *)
Record Flags : Type := {
  Server : string;
  Timeout : Z;
  AllowHTTP : bool;
  JSON : bool
}.

(** What a run of the command leaves: the text on standard output, the exit
    status, and the requests handed to the HTTP client. *)
Record Run : Type := {
  stdout : string;
  exit : Z;
  requests : list http.Request
}.

(** [configError(format, args...)], with the text of [format] filled in. *)
Definition configError (text : string) : Run :=
  {| stdout := "config error: " +:+ text +:+ nl; exit := 2; requests := [] |}.

(** [runtimeError(format, args...)], with the text of [format] filled in. *)
Definition runtimeError (text : string) (reqs : list http.Request) : Run :=
  {| stdout := "runtime error: " +:+ text +:+ nl; exit := 1; requests := reqs |}.

(** The line of a record in the loop under "Answer:". *)
Definition answerLine (record : Record_) : string :=
  "  " +:+ Record_Name record +:+ "   " +:+ RecordType_name (Record_Type record)
  +:+ "  " +:+ strconv.Itoa (Record_TTL record) +:+ "  '" +:+ Record_Data record
  +:+ "'" +:+ nl.

(** The line of a record in the loop under "Additional:". *)
Definition additionalLine (record : Record_) : string :=
  "  " +:+ Record_Name record +:+ "  " +:+ RecordType_name (Record_Type record)
  +:+ "  " +:+ strconv.Itoa (Record_TTL record) +:+ "  '" +:+ Record_Data record
  +:+ "'" +:+ nl.

Fixpoint concat (lines : list string) : string :=
  match lines with
  | [] => EmptyString
  | l :: rest => l +:+ concat rest
  end.

Section main.

(** [url.Parse]: the address, or the text of the error. *)
Variable url_Parse : string -> url.URL + string.
(** The HTTP clients are [http.DefaultClient] ([None]) and
    [&http.Client{Timeout: t}] ([Some t]). *)
Variable HTTPClient_Do : option Z -> http.Request -> http.Response + error.
Variable unmarshalJSON : string -> Answer + error.
(** [json.NewEncoder(os.Stdout).Encode(answer)], as the text it writes;
    [None] is the nil answer. *)
Variable json_Encode : option Answer -> string.
(** [time.Duration.String] *)
Variable Duration_String : Z -> string.

(** The text the [else] branch of [main] prints for [answer] and [rtt].
    Records are values here: an answer that holds a nil record is outside
    the model. *)
Definition printAnswer (answer : Answer) (rtt : Z) : string :=
  "Return Code: " +:+ ReturnCode_String (Status answer) +:+ nl
  +:+ "Truncated: " +:+ fmt_t (Truncated answer) +:+ nl
  +:+ "Recursion Desired / Available: " +:+ fmt_t (RecursionDesired answer)
  +:+ " / " +:+ fmt_t (RecursionAvailable answer) +:+ nl
  +:+ "DNSSEC Disabled / Validated: " +:+ fmt_t (DNSSECDisabled answer)
  +:+ " / " +:+ fmt_t (DNSSECValidated answer) +:+ nl +:+ nl
  +:+ "Answer:" +:+ nl
  +:+ concat (map answerLine (Answer_Answer answer))
  +:+ (if (0 <? length (Additional answer))%nat
       then nl +:+ "Additional:" +:+ nl
            +:+ concat (map additionalLine (Answer_Answer answer))
       else EmptyString)
  +:+ (if negb (String.eqb (Comment answer) "")
       then nl +:+ "Comment: " +:+ Comment answer +:+ nl
       else EmptyString)
  +:+ nl +:+ "Query time: " +:+ Duration_String rtt +:+ nl.

(** The Question [main] asks for the arguments [<record type> <name>]. *)
Definition question (rtype name : string) : Question :=
  {| Name := name;
     Type_ := RecordTypeFromString rtype;
     DisableDNSSEC := false;
     EDNSClientSubnet := EmptyString |}.

(** [main], after [flag.Parse()]: [args] is [flag.Args()], [t1] and [t2]
    are the clock readings of [client.Do].  A nil answer beside a nil error
    would end the text branch in a panic: nothing printed, exit status 2. *)
Definition main (fl : Flags) (args : list string) (t1 t2 : Z) : Run :=
  match args with
  | [rtype; name] =>
      match url_Parse (Server fl) with
      | inr e => configError ("invalid server: " +:+ e)
      | inl addr =>
          let c := {| client.Addr := Some addr;
                      client.HTTPClient := Some (Some (Timeout fl));
                      client.AllowHTTP := AllowHTTP fl |} in
          let out := client.Do (option Z) None HTTPClient_Do unmarshalJSON
                       c (question rtype name) t1 t2 in
          match client.err out with
          | Some e =>
              runtimeError ("could not query server: " +:+ client.Error e)
                           (client.sent out)
          | None =>
              if JSON fl
              then {| stdout := json_Encode (client.res out);
                      exit := 0;
                      requests := client.sent out |}
              else
                match client.res out with
                | Some answer =>
                    {| stdout := printAnswer answer (client.rtt out);
                       exit := 0;
                       requests := client.sent out |}
                | None =>
                    {| stdout := EmptyString; exit := 2; requests := client.sent out |}
                end
          end
      end
  | _ => configError "usage: doh [options] <record type> <name>"
  end.

End main.

End cmd.

(** * Properties *)

(** ** Examples *)

Example Itoa_ex1 : strconv.Itoa 32769 = "32769". Proof. reflexivity. Qed.
Example Itoa_ex2 : strconv.Itoa (-5) = "-5". Proof. reflexivity. Qed.
Example Itoa_ex3 : strconv.Itoa 0 = "0". Proof. reflexivity. Qed.
Example Atoi_ex1 : strconv.Atoi "-5" = (-5, None). Proof. reflexivity. Qed.
Example Atoi_ex2 : strconv.Atoi "12a" = (0, Some strconv.ErrSyntax). Proof. reflexivity. Qed.
Example Atoi_ex3 :
  strconv.Atoi "9223372036854775808" = (9223372036854775807, Some strconv.ErrRange).
Proof. reflexivity. Qed.
Example Atoi_ex4 :
  strconv.Atoi "-9223372036854775808" = (-9223372036854775808, None).
Proof. reflexivity. Qed.
Example Atoi_ex5 : strconv.Atoi "+" = (0, Some strconv.ErrSyntax). Proof. reflexivity. Qed.
Example RecordTypeFromString_ex : RecordTypeFromString "AAAA" = 28.
Proof. reflexivity. Qed.
Example RecordType_String_ex :
  RecordType_String (map_to_list rrNameToInt) 99999 = "unknown(99999)".
Proof. vm_compute. reflexivity. Qed.
Example RecordType_String_ex2 :
  RecordType_String (map_to_list rrNameToInt) 28 = "AAAA".
Proof. vm_compute. reflexivity. Qed.
Example Values_ex :
  QuestionFromValues (Values {| Name := "example.org."; Type_ := 28;
                                DisableDNSSEC := true; EDNSClientSubnet := "" |})
  = {| Name := "example.org."; Type_ := 28;
       DisableDNSSEC := true; EDNSClientSubnet := "" |}.
Proof. vm_compute. reflexivity. Qed.
Example FQDN_ex : FQDN "example.org" = "example.org." /\ FQDN "" = "." /\ IsFQDN "." = false.
Proof. vm_compute. auto. Qed.

(** ** Decimal strings: what [formatBits] writes and what [ParseUint] reads *)

Section decimal.
Import strconv.

Lemma byte_val_of n : 0 <= n < 256 -> byte_val (byte_of n) = n.
Proof.
  intros Hn. unfold byte_val, byte_of.
  rewrite N_ascii_embedding by lia. lia.
Qed.

Lemma digit_byte d :
  0 <= d <= 9 ->
  is_digit (byte_of (48 + d)) = true /\ byte_val (byte_of (48 + d)) - 48 = d.
Proof.
  intros Hd. unfold is_digit. rewrite byte_val_of by lia.
  split; [| lia].
  apply andb_true_iff. split; apply Z.leb_le; lia.
Qed.

Lemma is_digit_range c : is_digit c = true -> 0 <= byte_val c - 48 <= 9.
Proof.
  unfold is_digit. intros [H1 H2]%andb_true_iff.
  apply Z.leb_le in H1, H2. lia.
Qed.

Lemma append_cons x (a b : string) : String x a +:+ b = String x (a +:+ b).
Proof. reflexivity. Qed.

Lemma append_nil_r (a : string) : a +:+ EmptyString = a.
Proof. induction a as [| x a IH]; [reflexivity |]. now rewrite append_cons, IH. Qed.

Lemma append_assoc (a b c : string) : (a +:+ b) +:+ c = a +:+ (b +:+ c).
Proof. induction a as [| x a IH]; [reflexivity |]. now rewrite !append_cons, IH. Qed.

Lemma all_digits_app a b :
  all_digits (a +:+ b) = all_digits a && all_digits b.
Proof.
  induction a as [| x a IH]; [reflexivity |].
  rewrite append_cons. cbn. rewrite IH. now rewrite andb_assoc.
Qed.

Lemma decval_app a b n : decval (a +:+ b) n = decval b (decval a n).
Proof.
  revert n. induction a as [| x a IH]; intros n; [reflexivity |].
  rewrite append_cons. cbn. apply IH.
Qed.

Lemma decval_ge s : forall n, all_digits s = true -> 0 <= n -> n <= decval s n.
Proof.
  induction s as [| c s IH]; intros n Hs Hn; cbn in *; [lia |].
  apply andb_true_iff in Hs as [Hc Hs].
  apply is_digit_range in Hc.
  specialize (IH (n * 10 + (byte_val c - 48)) Hs). lia.
Qed.

(** A digit string whose value fits 64 bits is read without error. *)
Lemma parseUintLoop_ok s :
  forall n, all_digits s = true -> 0 <= n -> decval s n <= maxUint64 ->
            parseUintLoop s n = (decval s n, None).
Proof.
  induction s as [| c s IH]; intros n Hs Hn Hmax; cbn in *; [reflexivity |].
  apply andb_true_iff in Hs as [Hc Hs]. rewrite Hc.
  pose proof (is_digit_range c Hc) as Hd.
  pose proof (decval_ge s (n * 10 + (byte_val c - 48)) Hs ltac:(lia)) as Hge.
  assert (Hcut : cutoff = 1844674407370955162) by reflexivity.
  assert (Hm : maxUint64 = 18446744073709551615) by reflexivity.
  destruct (Z.leb_spec cutoff n); [lia |].
  destruct (Z.ltb_spec maxUint64 (n * 10 + (byte_val c - 48))); [lia |].
  apply IH; [assumption | lia | assumption].
Qed.

(** A syntax error always comes with the value 0. *)
Lemma parseUintLoop_syntax s :
  forall n v, parseUintLoop s n = (v, Some ErrSyntax) -> v = 0.
Proof.
  induction s as [| c s IH]; intros n v H; cbn in H; [discriminate |].
  destruct (is_digit c); [| congruence].
  destruct (cutoff <=? n); [discriminate |].
  destruct (maxUint64 <? _); [discriminate |].
  eapply IH, H.
Qed.

(** What the digit loop of [formatBits] writes. *)
Lemma formatBits_spec fuel :
  forall u acc,
    0 <= u < 2 ^ (Z.of_nat fuel + 1) ->
    exists c ds k,
      formatBits fuel u acc = String c ds +:+ acc /\
      all_digits (String c ds) = true /\
      (0 < u -> c <> "0"%char) /\
      (u = 0 -> ds = EmptyString) /\
      0 <= k /\
      forall n, decval (String c ds) n = n * 10 ^ k + u.
Proof.
  assert (Hone : forall u acc, 0 <= u < 10 ->
    exists c ds k,
      String (byte_of (48 + u)) acc = String c ds +:+ acc /\
      all_digits (String c ds) = true /\
      (0 < u -> c <> "0"%char) /\
      (u = 0 -> ds = EmptyString) /\
      0 <= k /\
      forall n, decval (String c ds) n = n * 10 ^ k + u).
  { intros u acc Hu. exists (byte_of (48 + u)), EmptyString, 1.
    destruct (digit_byte u ltac:(lia)) as [Hd Hv].
    repeat split; try reflexivity; try lia.
    - cbn. now rewrite Hd.
    - intros Hpos Heq.
      assert (byte_val (byte_of (48 + u)) = 48) by (rewrite Heq; reflexivity).
      lia.
    - intros n. cbn. lia. }
  induction fuel as [| fuel IH]; intros u acc Hu.
  - cbn [formatBits]. apply Hone. change (2 ^ (Z.of_nat 0 + 1)) with 2 in Hu. lia.
  - cbn [formatBits]. destruct (Z.leb_spec 10 u) as [Hge | Hlt]; [| apply Hone; lia].
    assert (Hdiv : 0 <= u / 10 < 2 ^ (Z.of_nat fuel + 1)).
    { split; [apply Z.div_pos; lia |].
      replace (Z.of_nat (S fuel) + 1) with (Z.succ (Z.of_nat fuel + 1)) in Hu by lia.
      rewrite Z.pow_succ_r in Hu by lia.
      apply Z.div_lt_upper_bound; lia. }
    destruct (IH (u / 10) (String (byte_of (48 + u mod 10)) acc) Hdiv)
      as (c & ds & k & Heq & Hall & Hnz & _ & Hk & Hval).
    pose proof (Z.mod_pos_bound u 10 ltac:(lia)) as Hmod.
    destruct (digit_byte (u mod 10) ltac:(lia)) as [Hd Hv].
    exists c, (ds +:+ String (byte_of (48 + u mod 10)) EmptyString), (k + 1).
    repeat split.
    + rewrite Heq. rewrite !append_cons. f_equal. now rewrite append_assoc.
    + change (String c (ds +:+ String (byte_of (48 + u mod 10)) EmptyString))
        with (String c ds +:+ String (byte_of (48 + u mod 10)) EmptyString).
      rewrite all_digits_app, Hall. cbn. now rewrite Hd.
    + intros _. apply Hnz.
      assert (1 <= u / 10) by (apply Z.div_le_lower_bound; lia). lia.
    + lia.
    + lia.
    + intros n.
      change (String c (ds +:+ String (byte_of (48 + u mod 10)) EmptyString))
        with (String c ds +:+ String (byte_of (48 + u mod 10)) EmptyString).
      rewrite decval_app, Hval. cbn [decval]. rewrite Hv.
      rewrite Z.pow_add_r by lia.
      pose proof (Z.div_mod u 10 ltac:(lia)). lia.
Qed.

Lemma formatUint_spec u :
  0 <= u ->
  exists c ds,
    formatUint u = String c ds /\
    all_digits (String c ds) = true /\
    (0 < u -> c <> "0"%char) /\
    (u = 0 -> ds = EmptyString) /\
    decval (String c ds) 0 = u.
Proof.
  intros Hu. unfold formatUint.
  assert (Hb : 0 <= u < 2 ^ (Z.of_nat (Z.to_nat (Z.log2 u)) + 1)).
  { split; [assumption |].
    rewrite Z2Nat.id by apply Z.log2_nonneg.
    destruct (Z.eq_dec u 0) as [-> | Hne]; [reflexivity |].
    apply Z.log2_spec. lia. }
  destruct (formatBits_spec _ u EmptyString Hb)
    as (c & ds & k & Heq & Hall & Hnz & Hz & Hk & Hval).
  exists c, ds. repeat split; try assumption.
  - rewrite Heq. apply append_nil_r.
  - rewrite Hval. lia.
Qed.

(** [Atoi] reads back what [Itoa] writes, for every [int]. *)
Lemma Atoi_Itoa i :
  minInt <= i <= maxInt -> Atoi (Itoa i) = (i, None).
Proof.
  intros Hi.
  assert (Hmin : minInt = -9223372036854775808) by reflexivity.
  assert (Hmax : maxInt = 9223372036854775807) by reflexivity.
  assert (Hcut : 2 ^ (intSize - 1) = 9223372036854775808) by reflexivity.
  assert (Hm : maxUint64 = 18446744073709551615) by reflexivity.
  unfold Atoi, Itoa, FormatInt.
  destruct (Z.ltb_spec i 0) as [Hneg | Hpos].
  - destruct (formatUint_spec (- i) ltac:(lia)) as (c & ds & Heq & Hall & _ & _ & Hval).
    rewrite Heq. cbn [ParseInt]. change (Ascii.eqb "-" "+") with false.
    change (Ascii.eqb "-" "-") with true. cbn [orb ParseUint].
    rewrite parseUintLoop_ok by (try assumption; lia).
    rewrite Hval, Hcut. cbn [negb andb].
    destruct (Z.ltb_spec 9223372036854775808 (- i)); [lia |].
    f_equal. lia.
  - destruct (formatUint_spec i Hpos) as (c & ds & Heq & Hall & _ & _ & Hval).
    rewrite Heq. cbn [ParseInt].
    assert (Hc : is_digit c = true).
    { cbn in Hall. now apply andb_true_iff in Hall as [Hc _]. }
    assert (Hp : Ascii.eqb c "+" = false).
    { destruct (Ascii.eqb_spec c "+") as [-> |]; [discriminate | reflexivity]. }
    assert (Hn : Ascii.eqb c "-" = false).
    { destruct (Ascii.eqb_spec c "-") as [-> |]; [discriminate | reflexivity]. }
    rewrite Hp, Hn. cbn [orb ParseUint].
    rewrite parseUintLoop_ok by (try assumption; lia).
    rewrite Hval, Hcut. cbn [negb andb].
    destruct (Z.leb_spec 9223372036854775808 i); [lia |].
    reflexivity.
Qed.

(** A syntax error of [Atoi] comes with the value 0. *)
Lemma Atoi_syntax s v : Atoi s = (v, Some ErrSyntax) -> v = 0.
Proof.
  unfold Atoi, ParseInt. destruct s as [| c s]; [congruence |].
  destruct (ParseUint _) as [un [[] |]]; [congruence | |].
  - destruct (_ && _); [congruence |]. destruct (_ && _); congruence.
  - destruct (_ && _); [congruence |]. destruct (_ && _); congruence.
Qed.

End decimal.

(** ** Fully qualified names *)

Lemma length_app (a b : string) :
  String.length (a +:+ b) = (String.length a + String.length b)%nat.
Proof.
  induction a as [| x a IH]; [reflexivity |].
  rewrite append_cons. cbn. now rewrite IH.
Qed.

Lemma last_byte_snoc (s : string) (c : ascii) :
  last_byte (s +:+ String c EmptyString) = Some c.
Proof.
  unfold last_byte. rewrite length_app. cbn [String.length].
  replace (Nat.pred (String.length s + 1)) with (0 + String.length s)%nat by lia.
  now rewrite <- append_correct2.
Qed.

Lemma IsFQDN_true name :
  IsFQDN name = true <->
  (1 < String.length name)%nat /\ last_byte name = Some "."%char.
Proof.
  unfold IsFQDN. split.
  - destruct (Nat.ltb_spec 1 (String.length name)); cbn; [| discriminate].
    case_bool_decide; [auto | discriminate].
  - intros [Hlen Hlast].
    destruct (Nat.ltb_spec 1 (String.length name)); [| lia].
    rewrite bool_decide_eq_true_2 by assumption. reflexivity.
Qed.

(** C10. For every non-empty name, [FQDN name] ends in the byte '.', is
    accepted by [IsFQDN], and [FQDN] leaves it as it is; for the empty name,
    [FQDN] gives the one-byte string ".", which [IsFQDN] rejects, so that
    [FQDN] applied once more gives a different string. *)
Theorem FQDN_IsFQDN_idempotent :
  (forall name : string,
      name <> EmptyString ->
      last_byte (FQDN name) = Some "."%char /\
      IsFQDN (FQDN name) = true /\
      FQDN (FQDN name) = FQDN name) /\
  (FQDN EmptyString = "." /\
   IsFQDN "." = false /\
   IsFQDN (FQDN EmptyString) = false /\
   FQDN (FQDN EmptyString) <> FQDN EmptyString).
Proof.
  split.
  - intros name Hne.
    assert (Hfq : IsFQDN (FQDN name) = true).
    { unfold FQDN. destruct (IsFQDN name) eqn:Hfq; cbn [negb]; [assumption |].
      apply IsFQDN_true. split; [| apply last_byte_snoc].
      rewrite length_app. destruct name; [congruence | cbn; lia]. }
    split; [now apply IsFQDN_true in Hfq |].
    split; [assumption |].
    unfold FQDN at 1. now rewrite Hfq.
  - repeat split; try reflexivity. discriminate.
Qed.

Lemma FQDN_IsFQDN_idempotent_witness :
  "example.org" <> EmptyString /\
  last_byte (FQDN "example.org") = Some "."%char /\
  IsFQDN (FQDN "example.org") = true /\
  FQDN (FQDN "example.org") = FQDN "example.org".
Proof.
  split; [discriminate |].
  apply (proj1 FQDN_IsFQDN_idempotent "example.org"). discriminate.
Defined.

(** ** Questions as URL parameters *)

Lemma ParseBool_1 : strconv.ParseBool "1" = (true, false).
Proof. reflexivity. Qed.

Lemma ParseBool_empty : strconv.ParseBool EmptyString = (false, true).
Proof. reflexivity. Qed.

Lemma Get_Values_name q : url.Get (Values q) "name" = Name q.
Proof.
  unfold url.Get, Values.
  destruct (0 <? Type_ q), (DisableDNSSEC q), (negb _);
    now repeat (rewrite lookup_insert_ne by discriminate);
    rewrite lookup_singleton_eq.
Qed.

Lemma Get_Values_type q :
  url.Get (Values q) "type" =
  if 0 <? Type_ q then strconv.Itoa (Type_ q) else "1".
Proof.
  unfold url.Get, Values.
  destruct (0 <? Type_ q), (DisableDNSSEC q), (negb _);
    now repeat (rewrite lookup_insert_ne by discriminate);
    rewrite lookup_insert_eq.
Qed.

Lemma Get_Values_cd q :
  url.Get (Values q) "cd" = if DisableDNSSEC q then "1" else EmptyString.
Proof.
  unfold url.Get, Values.
  destruct (0 <? Type_ q), (DisableDNSSEC q), (negb _);
    repeat (rewrite lookup_insert_ne by discriminate);
    first [ now rewrite lookup_insert_eq
          | now rewrite lookup_singleton_ne by discriminate ].
Qed.

Lemma Get_Values_subnet q :
  url.Get (Values q) "edns_client_subnet" = EDNSClientSubnet q.
Proof.
  unfold url.Get, Values.
  destruct (String.eqb_spec (EDNSClientSubnet q) EmptyString) as [He | He]; cbn [negb].
  - rewrite He.
    destruct (0 <? Type_ q), (DisableDNSSEC q);
      repeat (rewrite lookup_insert_ne by discriminate);
      now rewrite lookup_singleton_ne by discriminate.
  - now rewrite lookup_insert_eq.
Qed.

(** C2. For every Question [q] whose [Type] is greater than 0 (and, being
    a Go [int], at most [maxInt]), reading the URL parameters that [q.Values()]
    writes gives [q] back: the same Name, Type, DisableDNSSEC and
    EDNSClientSubnet. *)
Theorem QuestionFromValues_Values (q : Question) :
  0 < Type_ q -> Type_ q <= strconv.maxInt ->
  QuestionFromValues (Values q) = q.
Proof.
  intros Hpos Hmax. unfold QuestionFromValues. cbn [Name Type_ EDNSClientSubnet].
  rewrite Get_Values_name, Get_Values_type, Get_Values_cd, Get_Values_subnet.
  destruct (Z.ltb_spec 0 (Type_ q)); [| lia].
  rewrite Atoi_Itoa by (unfold strconv.minInt; cbn; lia). cbn [fst].
  destruct (Z.ltb_spec (Type_ q) 1); [lia |].
  destruct q as [n t [] e]; reflexivity.
Qed.

Lemma QuestionFromValues_Values_witness :
  (0 < 28 /\ 28 <= strconv.maxInt) /\
  QuestionFromValues
    (Values {| Name := "example.org."; Type_ := 28;
               DisableDNSSEC := true; EDNSClientSubnet := "192.0.2.0/24" |})
  = {| Name := "example.org."; Type_ := 28;
       DisableDNSSEC := true; EDNSClientSubnet := "192.0.2.0/24" |}.
Proof.
  split; [split; [reflexivity | discriminate] |].
  apply QuestionFromValues_Values; [reflexivity | discriminate].
Defined.

(** C5, as stated, fails: the digits of 2^63 are not parsable as an [int]
    ([Atoi] returns a range error), and yet the Question gets the type
    9223372036854775807, the value [Atoi] returns beside the error. *)
Lemma QuestionFromValues_range_error :
  strconv.Atoi (url.Get {[ "type" := ["9223372036854775808"] ]} "type")
  = (9223372036854775807, Some strconv.ErrRange) /\
  Type_ (QuestionFromValues {[ "type" := ["9223372036854775808"] ]})
  = 9223372036854775807 /\
  Type_ (QuestionFromValues {[ "type" := ["9223372036854775808"] ]}) <> A.
Proof. repeat split; vm_compute; (reflexivity || discriminate). Qed.

(** C5, amended. For every URL parameter set whose "type" value [Atoi]
    rejects with a syntax error (text that is no decimal integer, the empty
    string, an absent parameter) or reads as a value less than 1,
    [QuestionFromValues] yields a Question with [Type] = 1 (A). *)
Theorem QuestionFromValues_default_type (v : url.Values) :
  snd (strconv.Atoi (url.Get v "type")) = Some strconv.ErrSyntax \/
  fst (strconv.Atoi (url.Get v "type")) < 1 ->
  Type_ (QuestionFromValues v) = A.
Proof.
  intros H. unfold QuestionFromValues. cbn [Type_].
  destruct (strconv.Atoi (url.Get v "type")) as [n e] eqn:Hatoi. cbn [fst snd] in *.
  assert (Hn : n < 1).
  { destruct H as [-> | H]; [| assumption].
    apply Atoi_syntax in Hatoi. lia. }
  destruct (Z.ltb_spec n 1); [reflexivity | lia].
Qed.

Lemma QuestionFromValues_default_type_witness :
  (snd (strconv.Atoi (url.Get {[ "type" := ["TXT"] ]} "type")) = Some strconv.ErrSyntax \/
   fst (strconv.Atoi (url.Get {[ "type" := ["TXT"] ]} "type")) < 1) /\
  Type_ (QuestionFromValues {[ "type" := ["TXT"] ]}) = A.
Proof.
  assert (H : snd (strconv.Atoi (url.Get {[ "type" := ["TXT"] ]} "type"))
              = Some strconv.ErrSyntax \/
              fst (strconv.Atoi (url.Get {[ "type" := ["TXT"] ]} "type")) < 1)
    by (left; reflexivity).
  split; [exact H |].
  exact (QuestionFromValues_default_type _ H).
Defined.

Example QuestionFromValues_type_examples :
  Type_ (QuestionFromValues {[ "type" := ["0"] ]}) = 1 /\
  Type_ (QuestionFromValues {[ "type" := ["-5"] ]}) = 1 /\
  Type_ (QuestionFromValues {[ "type" := ["TXT"] ]}) = 1 /\
  Type_ (QuestionFromValues {[ "type" := ["-9223372036854775809"] ]}) = 1 /\
  Type_ (QuestionFromValues {[ "name" := ["example.org."] ]}) = 1 /\
  Type_ (QuestionFromValues {[ "type" := ["28"] ]}) = 28.
Proof. repeat split; vm_compute; reflexivity. Qed.

(** ** The table of record types *)

Lemma rrTable_NoDup : NoDup rrTable.*1.
Proof. apply (bool_decide_unpack _). vm_compute. exact I. Qed.

Lemma rrNameToInt_lookup name rr :
  rrNameToInt !! name = Some rr <-> (name, rr) ∈ rrTable.
Proof. unfold rrNameToInt. symmetry. apply elem_of_list_to_map, rrTable_NoDup. Qed.

(** No two mnemonics share a code, no code is the sentinel -1, and no
    mnemonic is registered in lower case. *)
Lemma rrTable_facts :
  Forall (fun p =>
            Forall (fun p' => p'.2 = p.2 -> p'.1 = p.1) rrTable /\
            p.2 <> -1 /\
            rrNameToInt !! ToLower p.1 = None /\
            p.1 <> EmptyString) rrTable.
Proof. apply (bool_decide_unpack _). vm_compute. exact I. Qed.

Lemma range_find_None rr iter :
  (forall k, (k, rr) ∉ iter) -> range_find rr iter = None.
Proof.
  induction iter as [| [k v] iter IH]; intros Hno; [reflexivity |].
  cbn. destruct (Z.eqb_spec rr v) as [-> | _].
  - exfalso. apply (Hno k). left.
  - apply IH. intros k' Hin. apply (Hno k'). now right.
Qed.

(** C6. A name that is not a registered mnemonic is mapped to -1 by
    [RecordTypeFromString]; a registered mnemonic is mapped to its code,
    which no other name is mapped to, and its lower-case spelling is mapped
    to -1; and for a code [N] that no mnemonic is registered for,
    [RecordType(N).String()] is "unknown(N)", in whatever order the range
    over the table goes. *)
Theorem RecordType_names (iter : list (string * Z)) :
  map_range rrNameToInt iter ->
  (forall name, rrNameToInt !! name = None -> RecordTypeFromString name = -1) /\
  (forall name rr,
      rrNameToInt !! name = Some rr ->
      RecordTypeFromString name = rr /\
      (forall name', RecordTypeFromString name' = rr -> name' = name) /\
      RecordTypeFromString (ToLower name) = -1) /\
  (forall N,
      (forall name, rrNameToInt !! name <> Some N) ->
      RecordType_String iter N = "unknown(" +:+ strconv.Itoa N +:+ ")").
Proof.
  intros Hiter. split; [| split].
  - intros name Hname. unfold RecordTypeFromString. now rewrite Hname.
  - intros name rr Hname.
    pose proof (proj1 (rrNameToInt_lookup name rr) Hname) as Hin.
    pose proof (proj1 (Forall_forall _ _) rrTable_facts _ Hin)
      as (Huniq & Hsent & Hlow & _).
    cbn [fst snd] in *.
    split; [| split].
    + unfold RecordTypeFromString. now rewrite Hname.
    + intros name'. unfold RecordTypeFromString.
      destruct (rrNameToInt !! name') as [rr' |] eqn:Hname'; [| congruence].
      intros ->. apply rrNameToInt_lookup in Hname'.
      apply (proj1 (Forall_forall _ _) Huniq _ Hname'). reflexivity.
    + unfold RecordTypeFromString. now rewrite Hlow.
  - intros N HN. unfold RecordType_String.
    rewrite range_find_None; [reflexivity |].
    intros k Hin. apply (HN k).
    apply elem_of_map_to_list. unfold map_range in Hiter. now rewrite <- Hiter.
Qed.

Lemma RecordType_names_witness :
  map_range rrNameToInt (map_to_list rrNameToInt) /\
  RecordTypeFromString "BOGUS" = -1 /\
  RecordTypeFromString "AAAA" = AAAA /\
  RecordTypeFromString "aaaa" = -1 /\
  RecordType_String (map_to_list rrNameToInt) 99999 = "unknown(99999)".
Proof.
  assert (Hiter : map_range rrNameToInt (map_to_list rrNameToInt))
    by (unfold map_range; reflexivity).
  destruct (RecordType_names _ Hiter) as (Hnone & Hsome & Hunknown).
  split; [exact Hiter |].
  split; [apply Hnone; reflexivity |].
  destruct (Hsome "AAAA" AAAA eq_refl) as (Hcode & _ & Hlower).
  split; [exact Hcode |].
  split; [exact Hlower |].
  apply (Hunknown 99999).
  intros name Hname. apply rrNameToInt_lookup in Hname.
  assert (Hcodes : Forall (fun p => p.2 <> 99999) rrTable)
    by (apply (bool_decide_unpack _); vm_compute; exact I).
  apply (proj1 (Forall_forall _ _) Hcodes _ Hname). reflexivity.
Defined.

(** ** Record types in JSON *)

Lemma quoted_length s : String.length (quoted s) = S (S (String.length s)).
Proof. unfold quoted. cbn [String.length]. rewrite length_app. cbn. lia. Qed.

Lemma quoted_last s : last_byte (quoted s) = Some quote.
Proof.
  unfold quoted. rewrite <- append_cons. apply last_byte_snoc.
Qed.

Lemma substring_prefix (s rest : string) :
  String.substring 0 (String.length s) (s +:+ rest) = s.
Proof.
  induction s as [| c s IH]; [now destruct rest |].
  rewrite append_cons. cbn. now rewrite IH.
Qed.

Lemma quoted_inner s :
  String.substring 1 (String.length (quoted s) - 2) (quoted s) = s.
Proof.
  rewrite quoted_length.
  replace (S (S (String.length s)) - 2)%nat with (String.length s) by lia.
  unfold quoted. cbn [String.substring]. apply substring_prefix.
Qed.

Lemma plain_not_space c : plain c = true -> json.is_space c = false.
Proof.
  unfold plain, json.is_space. intros [H | H]%orb_true_iff.
  - apply is_digit_range in H. apply bool_decide_eq_false.
    rewrite !elem_of_cons, elem_of_nil. lia.
  - apply Ascii.eqb_eq in H. now subst c.
Qed.

Lemma all_digits_plain s : all_digits s = true -> all_plain s = true.
Proof.
  induction s as [| c s IH]; [reflexivity |]. cbn.
  intros [Hc Hs]%andb_true_iff. unfold plain. now rewrite Hc, IH.
Qed.

Lemma trim_plain s : all_plain s = true -> json.trim s = s.
Proof.
  intros Hs. unfold json.trim.
  assert (Hl : json.trim_left s = s).
  { destruct s as [| c s]; [reflexivity |]. cbn in *.
    apply andb_true_iff in Hs as [Hc _]. now rewrite (plain_not_space c Hc). }
  rewrite Hl. clear Hl.
  induction s as [| c s IH]; [reflexivity |]. cbn in *.
  apply andb_true_iff in Hs as [Hc Hs]. rewrite (IH Hs).
  rewrite (plain_not_space c Hc). now destruct s.
Qed.

(** What [Itoa] writes is an integer literal of JSON, without white space,
    that starts with a digit or the minus sign. *)
Lemma Itoa_literal n :
  all_plain (strconv.Itoa n) = true /\
  json.int_literal (strconv.Itoa n) = true /\
  exists c s, strconv.Itoa n = String c s /\ plain c = true.
Proof.
  unfold strconv.Itoa, strconv.FormatInt.
  assert (Hu : forall u, 0 <= u ->
            exists c ds, strconv.formatUint u = String c ds /\
                         all_digits (String c ds) = true /\
                         Ascii.eqb c "-" = false /\
                         (if Ascii.eqb c "0" then bool_decide (ds = EmptyString)
                          else is_digit c && all_digits ds) = true).
  { intros u Hu.
    destruct (formatUint_spec u Hu) as (c & ds & Heq & Hall & Hnz & Hz & _).
    exists c, ds. split; [assumption |]. split; [assumption |].
    pose proof Hall as Hall'. cbn in Hall'. apply andb_true_iff in Hall' as [Hc Hds].
    split.
    - destruct (Ascii.eqb_spec c "-") as [-> | _]; [discriminate | reflexivity].
    - destruct (Ascii.eqb_spec c "0") as [-> | _].
      + destruct (Z.eq_dec u 0) as [H0 | H0].
        * rewrite (Hz H0). reflexivity.
        * exfalso. apply Hnz; [lia | reflexivity].
      + now rewrite Hc, Hds. }
  destruct (Z.ltb_spec n 0) as [Hneg | Hpos].
  - destruct (Hu (- n) ltac:(lia)) as (c & ds & Heq & Hall & _ & Hlit).
    rewrite Heq. split; [| split].
    + change (all_plain (String "-" (String c ds)))
        with (all_plain (String c ds)). now apply all_digits_plain.
    + exact Hlit.
    + now exists "-"%char, (String c ds).
  - destruct (Hu n Hpos) as (c & ds & Heq & Hall & Hminus & Hlit).
    rewrite Heq. split; [| split].
    + now apply all_digits_plain.
    + unfold json.int_literal. now rewrite Hminus.
    + exists c, ds. split; [reflexivity |].
      cbn in Hall. apply andb_true_iff in Hall as [Hc _].
      unfold plain. now rewrite Hc.
Qed.

(** C8. [RecordType.UnmarshalJSON] stores the number of a numeric literal
    (the decimal literal of any [int]) as it is, and the code of a registered
    mnemonic written between double quotes; the empty string between double
    quotes sets the value to 0 without an error; a non-empty string between
    double quotes that is not a registered mnemonic gives an error. *)
Theorem UnmarshalJSON_number_or_mnemonic (rr : Z) :
  (forall n, strconv.minInt <= n <= strconv.maxInt ->
             UnmarshalJSON rr (strconv.Itoa n) = (n, None)) /\
  (forall name x, rrNameToInt !! name = Some x ->
                  UnmarshalJSON rr (quoted name) = (x, None)) /\
  UnmarshalJSON rr (quoted EmptyString) = (0, None) /\
  (forall name, name <> EmptyString -> rrNameToInt !! name = None ->
                exists e, UnmarshalJSON rr (quoted name) = (rr, Some e)).
Proof.
  assert (Hq : forall name, name <> EmptyString ->
            UnmarshalJSON rr (quoted name) =
            match rrNameToInt !! name with
            | None => (rr, Some (errorString "unknown record type"))
            | Some x => (x, None)
            end).
  { intros name Hne. unfold UnmarshalJSON.
    rewrite quoted_inner, quoted_last, quoted_length.
    destruct name as [| c name]; [congruence |]. reflexivity. }
  split; [| split; [| split]].
  - intros n Hn. unfold UnmarshalJSON.
    destruct (Itoa_literal n) as (Hplain & Hlit & c & s & Heq & Hc).
    assert (Hfirst : bool_decide (String.get 0 (strconv.Itoa n) = Some quote) = false).
    { rewrite Heq. cbn. apply bool_decide_eq_false. intros [= ->]. discriminate. }
    rewrite Hfirst. cbn [andb].
    assert (Hlen : (String.length (strconv.Itoa n) <? 1)%nat = false)
      by (rewrite Heq; reflexivity).
    rewrite Hlen. unfold json.Unmarshal_int.
    rewrite (trim_plain _ Hplain), Hlit.
    assert (Hnull : String.eqb (strconv.Itoa n) "null" = false).
    { rewrite Heq. destruct (String.eqb_spec (String c s) "null") as [[= -> _] |];
        [discriminate | reflexivity]. }
    rewrite Hnull.
    change (strconv.ParseInt (strconv.Itoa n)) with (strconv.Atoi (strconv.Itoa n)).
    now rewrite Atoi_Itoa.
  - intros name x Hname.
    assert (Hne : name <> EmptyString) by (intros ->; discriminate).
    now rewrite Hq, Hname.
  - reflexivity.
  - intros name Hne Hname. rewrite Hq, Hname by assumption. eauto.
Qed.

Lemma UnmarshalJSON_number_or_mnemonic_witness :
  (strconv.minInt <= 28 <= strconv.maxInt /\
   rrNameToInt !! "AAAA" = Some AAAA /\
   "aaaa" <> EmptyString /\ rrNameToInt !! "aaaa" = None) /\
  UnmarshalJSON 7 "28" = (28, None) /\
  UnmarshalJSON 7 (quoted "AAAA") = (28, None) /\
  exists e, UnmarshalJSON 7 (quoted "aaaa") = (7, Some e).
Proof.
  destruct (UnmarshalJSON_number_or_mnemonic 7) as (Hnum & Hname & _ & Hunknown).
  assert (Hrange : strconv.minInt <= 28 <= strconv.maxInt)
    by (split; discriminate).
  split; [repeat split; try assumption; try discriminate |].
  split; [exact (Hnum 28 Hrange) |].
  split; [exact (Hname "AAAA" AAAA eq_refl) |].
  apply Hunknown; [discriminate | reflexivity].
Defined.

Example UnmarshalJSON_examples :
  UnmarshalJSON 7 EmptyString = (7, Some (errorString "unexpected end of JSON input")) /\
  UnmarshalJSON 7 " 28 " = (28, None) /\
  UnmarshalJSON 7 "null" = (0, None) /\
  UnmarshalJSON 7 "1.5" = (7, Some JSONError) /\
  UnmarshalJSON 7 "01" = (7, Some JSONError) /\
  UnmarshalJSON 7 "9223372036854775808" = (7, Some JSONError) /\
  UnmarshalJSON 7 (quoted "TXT") = (16, None) /\
  UnmarshalJSON 7 (quoted "txt") = (7, Some (errorString "unknown record type")).
Proof. repeat split; vm_compute; reflexivity. Qed.

(** ** The server *)

Section server_properties.
Import server.

(** [Header.Get] gives the empty string for a header that is absent, that
    has no value, or whose first value is empty, and for no other. *)
Lemma Get_empty (h : http.MIMEHeader) key :
  http.Get h key = EmptyString <->
  h !! key = None \/ h !! key = Some [] \/
  exists rest, h !! key = Some (EmptyString :: rest).
Proof.
  unfold http.Get. destruct (h !! key) as [[| x rest] |].
  - split; [auto | reflexivity].
  - split.
    + intros ->. right. right. now exists rest.
    + intros [H | [H | [rest' H]]]; congruence.
  - split; [auto | reflexivity].
Qed.

(** The scenarios of the validation order, one request per validation. *)
Example ServeHTTP_scenarios :
  let url_ scheme name :=
    {| url.Scheme := scheme; url.User := None; url.Host := "dns.example";
       url.Path := "/resolve"; url.Query := {[ "name" := [name] ]} |} in
  let req method accept scheme name :=
    {| http.Method := method; http.URL := url_ scheme name;
       http.Header := accept; http.Host := "dns.example" |} in
  let nil_handler := {| Handler := None; AllowHTTP := false |} in
  let s := {| Handler := Some (fun _ => None); AllowHTTP := false |} in
  ServeHTTP nil_handler (req "POST" ∅ "http" "") = [WriteHeader 400] /\
  ServeHTTP nil_handler (req "GET" ∅ "http" "") = [WriteHeader 400] /\
  ServeHTTP nil_handler
    (req "GET" {[ "Accept" := ["application/dns-json-extra"] ]} "http" "")
  = [WriteHeader 415] /\
  ServeHTTP nil_handler (req "GET" {[ "Accept" := ["text/plain"] ]} "http" "")
  = [WriteHeader 500] /\
  ServeHTTP s (req "GET" {[ "Accept" := ["text/plain"] ]} "http" "")
  = [WriteHeader 403] /\
  ServeHTTP s (req "GET" {[ "Accept" := ["text/plain"] ]} "https" "")
  = [WriteHeader 400] /\
  status (ServeHTTP s (req "GET" {[ "Accept" := ["text/plain"] ]} "https" "example.org."))
  = Some 200.
Proof. repeat split; vm_compute; reflexivity. Qed.

(** C1, as stated, fails: a GET request with an Accept header that is
    present and empty, sent to a server without a handler, passes the first
    three validations as specified and fails the fourth, which asks for 500;
    [ServeHTTP] replies 400. *)
Lemma ServeHTTP_empty_Accept :
  let s := {| Handler := None; AllowHTTP := false |} in
  let r := {| http.Method := "GET";
              http.URL := {| url.Scheme := "https"; url.User := None;
                             url.Host := "dns.example"; url.Path := "/resolve";
                             url.Query := {[ "name" := ["example.org."] ]} |};
              http.Header := {[ "Accept" := [EmptyString] ]};
              http.Host := "dns.example" |} in
  http.Header r !! "Accept" = Some [EmptyString] /\
  first_failing (validations_as_specified s r) = Some 500 /\
  ServeHTTP s r = [WriteHeader 400].
Proof. repeat split; vm_compute; reflexivity. Qed.

(** C1, amended. [ServeHTTP] applies its six validations in the fixed order
    (1) method GET, else 400; (2) Accept header present with a first value
    that is not empty, else 400; (3) Accept header not starting with
    "application/dns-json", else 415; (4) handler configured, else 500;
    (5) scheme "https" or plaintext allowed, else 403; (6) Name of the
    derived Question not empty, else 400.  The reply to a request that fails
    one is the status of the first that fails and nothing else; the status
    is 200 exactly when all six pass. *)
Theorem ServeHTTP_first_failing (s : Server) (r : http.Request) :
  match first_failing (validations s r) with
  | Some code => ServeHTTP s r = [WriteHeader code]
  | None => status (ServeHTTP s r) = Some http.StatusOK
  end /\
  (status (ServeHTTP s r) = Some http.StatusOK <->
   first_failing (validations s r) = None).
Proof.
  unfold validations, ServeHTTP. cbn [first_failing].
  destruct (String.eqb (http.Method r) http.MethodGet); cbn [negb];
    [| split; [reflexivity | split; discriminate]].
  destruct (String.eqb (http.Get (http.Header r) "Accept") ""); cbn [negb];
    [split; [reflexivity | split; discriminate] |].
  destruct (strings.HasPrefix _ _); cbn [negb];
    [split; [reflexivity | split; discriminate] |].
  destruct (Handler s) as [h |]; cbn [bool_decide decide_rel];
    [| split; [reflexivity | split; discriminate]].
  rewrite bool_decide_eq_true_2 by eauto.
  destruct (String.eqb (url.Scheme (http.URL r)) "https"), (AllowHTTP s);
    cbn [negb andb orb];
    try (destruct (String.eqb (Name _) ""); cbn [negb];
         split; first [reflexivity | split; (reflexivity || discriminate)]).
  split; [reflexivity | split; discriminate].
Qed.

(** C3. When all six validations pass and the handler returns nil, the
    reply has status 200 and its body is the encoding of an Answer with
    Status 2 (ServerFailure), no records, and every other field at its
    zero value. *)
Theorem ServeHTTP_nil_answer (s : Server) (r : http.Request) (h : HandlerFunc) :
  first_failing (validations s r) = None ->
  Handler s = Some h ->
  h (QuestionFromValues (url.Query (http.URL r))) = None ->
  status (ServeHTTP s r) = Some 200 /\
  body (ServeHTTP s r) =
    Some {| Status := 2;
            Truncated := false;
            RecursionDesired := false;
            RecursionAvailable := false;
            DNSSECValidated := false;
            DNSSECDisabled := false;
            Answer_Question := [];
            Answer_Answer := [];
            Authority := [];
            Additional := [];
            Comment := EmptyString;
            EdnsClientSubnet := EmptyString |}.
Proof.
  unfold validations, ServeHTTP. cbn [first_failing].
  intros Hpass Hh Hnil. rewrite Hh in *.
  destruct (String.eqb (http.Method r) http.MethodGet); [| discriminate].
  destruct (String.eqb (http.Get (http.Header r) "Accept") ""); [discriminate |].
  destruct (strings.HasPrefix _ _); [discriminate |].
  cbn [negb] in *. rewrite bool_decide_eq_true_2 in Hpass by eauto.
  destruct (String.eqb (url.Scheme (http.URL r)) "https" || AllowHTTP s) eqn:Hs;
    [| discriminate].
  assert (Hs' : negb (String.eqb (url.Scheme (http.URL r)) "https") && negb (AllowHTTP s)
                = false).
  { destruct (String.eqb _ _), (AllowHTTP s); (reflexivity || discriminate). }
  rewrite Hs'.
  destruct (String.eqb (Name _) ""); [discriminate |].
  rewrite Hnil. split; reflexivity.
Qed.

Lemma ServeHTTP_nil_answer_witness :
  let s := {| Handler := Some (fun _ => None); AllowHTTP := false |} in
  let r := {| http.Method := "GET";
              http.URL := {| url.Scheme := "https"; url.User := None;
                             url.Host := "dns.example"; url.Path := "/resolve";
                             url.Query := {[ "name" := ["example.org."] ]} |};
              http.Header := {[ "Accept" := ["*/*"] ]};
              http.Host := "dns.example" |} in
  first_failing (validations s r) = None /\
  status (ServeHTTP s r) = Some 200 /\
  Status <$> body (ServeHTTP s r) = Some ServerFailure /\
  Answer_Answer <$> body (ServeHTTP s r) = Some [].
Proof.
  intros s r.
  assert (Hpass : first_failing (validations s r) = None) by (vm_compute; reflexivity).
  destruct (ServeHTTP_nil_answer s r (fun _ => None) Hpass eq_refl eq_refl)
    as [Hstatus Hbody].
  split; [exact Hpass |].
  split; [exact Hstatus |].
  rewrite Hbody. split; reflexivity.
Defined.

End server_properties.

(** ** The client *)

Section client_properties.
Import client.

Variable HTTPClientRef : Type.
Variable DefaultClient : HTTPClientRef.
Variable HTTPClient_Do : HTTPClientRef -> http.Request -> http.Response + error.
Variable unmarshalJSON : string -> Answer + error.

Abbreviation Client := (Client HTTPClientRef).
Abbreviation Do := (Do HTTPClientRef DefaultClient HTTPClient_Do unmarshalJSON).
Abbreviation transport := (transport HTTPClientRef DefaultClient).

Lemma contains_prefix (s rest : string) : contains (s +:+ rest) s.
Proof. exists EmptyString, rest. reflexivity. Qed.

(** The checks of [Do] before the request, as one condition. *)
Lemma Do_passes (c : Client) (q : Question) (t1 t2 : Z) (addr : url.URL) :
  Addr c = Some addr ->
  url.Scheme addr = "https" \/ AllowHTTP c = true ->
  sent (Do c q t1 t2) = [request addr q] /\
  after (Do c q t1 t2) =
    {| Addr := Addr c; HTTPClient := Some (transport c); AllowHTTP := AllowHTTP c |} /\
  err (Do c q t1 t2) =
    match HTTPClient_Do (transport c) (request addr q) with
    | inr e => Some (if isNetTimeout e then ClientError "server timeout" (Some e) else e)
    | inl w =>
        if http.StatusCode w =? http.StatusOK
        then match unmarshalJSON (http.Body w) with
             | inr e => Some e
             | inl _ => None
             end
        else Some (HTTPError (http.StatusCode w))
    end.
Proof.
  intros Haddr Hok. unfold client.Do. rewrite Haddr.
  assert (Hpre : negb (String.eqb (url.Scheme addr) "https") && negb (AllowHTTP c) = false).
  { destruct Hok as [-> | ->]; [reflexivity | apply andb_false_r]. }
  rewrite Hpre.
  destruct (HTTPClient_Do _ _) as [w | e]; [| now repeat split].
  destruct (http.StatusCode w =? http.StatusOK); [| now repeat split].
  destruct (unmarshalJSON _); now repeat split.
Qed.

(** C4. When the HTTP client returns an error that is a [net.Error] with
    [Timeout()] true, [Do] returns a [ClientError] whose message contains
    "server timeout" and whose [Cause()] is that error; every other error of
    the HTTP client is returned as it is. *)
Theorem Do_timeout (c : Client) (q : Question) (t1 t2 : Z) (addr : url.URL) (e : error) :
  Addr c = Some addr ->
  url.Scheme addr = "https" \/ AllowHTTP c = true ->
  HTTPClient_Do (transport c) (request addr q) = inr e ->
  (isNetTimeout e = true ->
   exists ce, err (Do c q t1 t2) = Some ce /\
              ce = ClientError "server timeout" (Some e) /\
              contains (Error ce) "server timeout" /\
              Cause ce = Some e) /\
  (isNetTimeout e = false -> err (Do c q t1 t2) = Some e).
Proof.
  intros Haddr Hok He.
  destruct (Do_passes c q t1 t2 addr Haddr Hok) as (_ & _ & Herr).
  rewrite He in Herr. split; intros Ht; rewrite Ht in Herr; [| exact Herr].
  eexists. split; [exact Herr |]. split; [reflexivity |].
  split; [| reflexivity].
  cbn [Error]. apply contains_prefix.
Qed.

(** C7. [Do] fails before any HTTP request is issued when no server address
    is configured, with the [ClientError] "no server configured", and when
    the scheme of the address is not "https" while plaintext is not allowed,
    with the [ClientError] "https required". *)
Theorem Do_preconditions (c : Client) (q : Question) (t1 t2 : Z) :
  (Addr c = None ->
   err (Do c q t1 t2) = Some (ClientError "no server configured" None) /\
   Error (ClientError "no server configured" None) = "no server configured" /\
   res (Do c q t1 t2) = None /\
   sent (Do c q t1 t2) = []) /\
  (forall addr,
      Addr c = Some addr ->
      url.Scheme addr <> "https" ->
      AllowHTTP c = false ->
      err (Do c q t1 t2) = Some (ClientError "https required" None) /\
      Error (ClientError "https required" None) = "https required" /\
      res (Do c q t1 t2) = None /\
      sent (Do c q t1 t2) = []).
Proof.
  split.
  - intros Haddr. unfold client.Do. rewrite Haddr. now repeat split.
  - intros addr Haddr Hscheme Hallow. unfold client.Do. rewrite Haddr, Hallow.
    apply String.eqb_neq in Hscheme. rewrite Hscheme. now repeat split.
Qed.

(** C9, amended. [Do] leaves [Addr] and [AllowHTTP] of its Client as they
    are, and [HTTPClient] too when the field is set or when the call ends
    before a request is issued; a call that issues a request on a Client
    whose [HTTPClient] is nil leaves [http.DefaultClient] in the field. *)
Theorem Do_frame (c : Client) (q : Question) (t1 t2 : Z) :
  Addr (after (Do c q t1 t2)) = Addr c /\
  AllowHTTP (after (Do c q t1 t2)) = AllowHTTP c /\
  (is_Some (HTTPClient c) -> after (Do c q t1 t2) = c) /\
  (sent (Do c q t1 t2) = [] -> after (Do c q t1 t2) = c) /\
  (HTTPClient c = None -> sent (Do c q t1 t2) <> [] ->
   HTTPClient (after (Do c q t1 t2)) = Some DefaultClient).
Proof.
  destruct (Addr c) as [addr |] eqn:Haddr.
  - destruct (negb (String.eqb (url.Scheme addr) "https") && negb (AllowHTTP c))
      eqn:Hpre.
    + unfold client.Do. rewrite Haddr, Hpre. cbn. now repeat split.
    + assert (Hok : url.Scheme addr = "https" \/ AllowHTTP c = true).
      { destruct (String.eqb_spec (url.Scheme addr) "https"); [now left |].
        destruct (AllowHTTP c); [now right | discriminate]. }
      destruct (Do_passes c q t1 t2 addr Haddr Hok) as (Hsent & Hafter & _).
      rewrite Hafter, Hsent. cbn. rewrite Haddr.
      split; [reflexivity |]. split; [reflexivity |]. split; [| split].
      * intros [h Hh]. unfold client.transport. rewrite Hh.
        destruct c; cbn in *. congruence.
      * discriminate.
      * intros Hnil _. unfold client.transport. now rewrite Hnil.
  - unfold client.Do. rewrite Haddr. cbn. now repeat split.
Qed.

End client_properties.

(** A client of one HTTP client that times out on every request. *)
Lemma Do_timeout_witness :
  let c := {| client.Addr := Some {| url.Scheme := "https"; url.User := None;
                                     url.Host := "dns.google.com";
                                     url.Path := "/resolve"; url.Query := ∅ |};
              client.HTTPClient := Some tt;
              client.AllowHTTP := false |} in
  let q := {| Name := "example.org."; Type_ := A;
              DisableDNSSEC := false; EDNSClientSubnet := EmptyString |} in
  let e := TransportError "context deadline exceeded" (Some true) in
  let out := client.Do unit tt (fun _ _ => inr e) (fun _ => inr JSONError) c q 0 5 in
  client.isNetTimeout e = true /\
  client.err out = Some (ClientError "server timeout" (Some e)) /\
  client.Error (ClientError "server timeout" (Some e))
  = "server timeout: context deadline exceeded".
Proof.
  intros c q e out.
  destruct (Do_timeout unit tt (fun _ _ => inr e) (fun _ => inr JSONError)
              c q 0 5 _ e eq_refl (or_introl eq_refl) eq_refl) as [Ht _].
  destruct (Ht eq_refl) as (ce & Herr & -> & _ & _).
  split; [reflexivity |]. split; [exact Herr | reflexivity].
Defined.

Lemma Do_preconditions_witness :
  let plain := {| url.Scheme := "http"; url.User := None;
                  url.Host := "dns.example"; url.Path := "/resolve"; url.Query := ∅ |} in
  let q := {| Name := "example.org."; Type_ := A;
              DisableDNSSEC := false; EDNSClientSubnet := EmptyString |} in
  let Do := client.Do unit tt (fun _ _ => inr JSONError) (fun _ => inr JSONError) in
  let c1 := {| client.Addr := None; client.HTTPClient := None; client.AllowHTTP := true |} in
  let c2 := {| client.Addr := Some plain; client.HTTPClient := None;
               client.AllowHTTP := false |} in
  (url.Scheme plain <> "https") /\
  client.err (Do c1 q 0 5) = Some (ClientError "no server configured" None) /\
  client.sent (Do c1 q 0 5) = [] /\
  client.err (Do c2 q 0 5) = Some (ClientError "https required" None) /\
  client.sent (Do c2 q 0 5) = [].
Proof.
  intros plain q Do c1 c2.
  assert (Hplain : url.Scheme plain <> "https") by discriminate.
  destruct (Do_preconditions unit tt (fun _ _ => inr JSONError) (fun _ => inr JSONError)
              c1 q 0 5) as [H1 _].
  destruct (Do_preconditions unit tt (fun _ _ => inr JSONError) (fun _ => inr JSONError)
              c2 q 0 5) as [_ H2].
  destruct (H1 eq_refl) as (He1 & _ & _ & Hs1).
  destruct (H2 plain eq_refl Hplain eq_refl) as (He2 & _ & _ & Hs2).
  repeat split; assumption.
Defined.

(** C9, as stated, fails: a call on a Client whose HTTPClient is nil, with
    an https address, leaves the default HTTP client in the field. *)
Lemma Do_writes_HTTPClient :
  let c := {| client.Addr := Some {| url.Scheme := "https"; url.User := None;
                                     url.Host := "dns.google.com";
                                     url.Path := "/resolve"; url.Query := ∅ |};
              client.HTTPClient := None;
              client.AllowHTTP := false |} in
  let q := {| Name := "example.org."; Type_ := A;
              DisableDNSSEC := false; EDNSClientSubnet := EmptyString |} in
  let out := client.Do unit tt
               (fun _ _ => inl {| http.StatusCode := 500; http.Body := EmptyString |})
               (fun _ => inr JSONError) c q 0 5 in
  client.HTTPClient c = None /\
  client.HTTPClient (client.after out) = Some tt /\
  client.after out <> c.
Proof. repeat split; vm_compute; (reflexivity || discriminate). Qed.

Lemma Do_frame_witness :
  let addr := {| url.Scheme := "https"; url.User := None;
                 url.Host := "cloudflare-dns.com";
                 url.Path := "/dns-query"; url.Query := ∅ |} in
  let q := {| Name := "example.org."; Type_ := A;
              DisableDNSSEC := false; EDNSClientSubnet := EmptyString |} in
  let Do := client.Do nat 0%nat
               (fun _ _ => inl {| http.StatusCode := 500; http.Body := EmptyString |})
               (fun _ => inr JSONError) in
  let c1 := {| client.Addr := Some addr; client.HTTPClient := Some 1%nat;
               client.AllowHTTP := false |} in
  let c2 := {| client.Addr := Some addr; client.HTTPClient := None;
               client.AllowHTTP := false |} in
  is_Some (client.HTTPClient c1) /\
  client.after (Do c1 q 0 5) = c1 /\
  client.HTTPClient (client.after (Do c2 q 0 5)) = Some 0%nat.
Proof.
  intros addr q Do c1 c2.
  assert (Hset : is_Some (client.HTTPClient c1)) by (eexists; reflexivity).
  destruct (Do_frame nat 0%nat
              (fun _ _ => inl {| http.StatusCode := 500; http.Body := EmptyString |})
              (fun _ => inr JSONError) c1 q 0 5) as (_ & _ & H1 & _ & _).
  destruct (Do_frame nat 0%nat
              (fun _ _ => inl {| http.StatusCode := 500; http.Body := EmptyString |})
              (fun _ => inr JSONError) c2 q 0 5) as (_ & _ & _ & _ & H2).
  split; [exact Hset |]. split; [exact (H1 Hset) |].
  apply H2; [reflexivity | discriminate].
Defined.

(** * Further properties of doh.go *)

(** ** Return codes *)

Ltac case_code rc :=
  repeat match goal with
         | |- context [Z.eqb rc ?k] =>
             destruct (Z.eqb_spec rc k) as [-> | ?]
         | H : context [Z.eqb rc ?k] |- _ =>
             destruct (Z.eqb_spec rc k) as [-> | ?]
         end.

Lemma ReturnCode_String_UNKNOWN rc :
  ReturnCode_String rc = "UNKNOWN" <-> ~ handled rc.
Proof.
  unfold ReturnCode_String, handled,
    Success, FormatError, ServerFailure, NameError, NotImplemented, Refused,
    YXDomain, YXRrset, NXRrset, NotAuth, NotZone, BadSig, BadKey, BadTime,
    BadMode, BadAlg, BadTrunc, BadCookie.
  case_code rc; (split; [intros H; try discriminate H; lia | intros H; try reflexivity; exfalso; lia]).
Qed.

(** The code a mnemonic of [ReturnCode.String] stands for. *)
Lemma ReturnCode_String_code rc :
  handled rc ->
  (("NOERROR", 0) :: ("FORMERR", 1) :: ("SERVFAIL", 2) :: ("NXDOMAIN", 3) ::
   ("NOTIMP", 4) :: ("REFUSED", 5) :: ("YXDOMAIN", 6) :: ("YXRRSET", 7) ::
   ("NXRRSET", 8) :: ("NOTAUTH", 9) :: ("NOTZONE", 10) :: ("BADSIG", 16) ::
   ("BADKEY", 17) :: ("BADTIME", 18) :: ("BADMODE", 19) :: ("BADALG", 21) ::
   ("BADTRUNC", 22) :: ("BADCOOKIE", 23) :: @nil (string * Z))
  !! Z.to_nat (if rc <? 16 then rc else if rc <? 20 then rc - 5 else rc - 6)
  = Some (ReturnCode_String rc, rc).
Proof.
  unfold handled. intros H.
  assert (Hc : rc = 0 \/ rc = 1 \/ rc = 2 \/ rc = 3 \/ rc = 4 \/ rc = 5 \/ rc = 6 \/
               rc = 7 \/ rc = 8 \/ rc = 9 \/ rc = 10 \/ rc = 16 \/ rc = 17 \/
               rc = 18 \/ rc = 19 \/ rc = 21 \/ rc = 22 \/ rc = 23) by lia.
  repeat (destruct Hc as [-> | Hc]; [reflexivity |]). subst rc. reflexivity.
Qed.

(** X1. [ReturnCode.String] gives "UNKNOWN" exactly for the codes outside
    0..10, 16..19 and 21..23; two different codes never share another
    mnemonic; and of the constants the package defines, BadName (20) is the
    one that prints as "UNKNOWN" (BadVers, equal to BadSig, prints as
    "BADSIG"). *)
Theorem ReturnCode_String_mnemonics :
  (forall rc, ReturnCode_String rc = "UNKNOWN" <-> ~ handled rc) /\
  (forall a b, ReturnCode_String a = ReturnCode_String b ->
               ReturnCode_String a <> "UNKNOWN" -> a = b) /\
  (forall name rc, (name, rc) ∈ returnCodes ->
                   (ReturnCode_String rc = "UNKNOWN" <-> name = "BadName")) /\
  ReturnCode_String BadVers = "BADSIG".
Proof.
  split; [exact ReturnCode_String_UNKNOWN |]. split; [| split; [| reflexivity]].
  - intros a b Heq Hknown.
    assert (Ha : handled a).
    { destruct (decide (handled a)) as [H | H]; [assumption |].
      now apply ReturnCode_String_UNKNOWN in H. }
    assert (Hb : handled b).
    { destruct (decide (handled b)) as [H | H]; [assumption |].
      apply ReturnCode_String_UNKNOWN in H. congruence. }
    pose proof (ReturnCode_String_code a Ha) as Hla.
    pose proof (ReturnCode_String_code b Hb) as Hlb.
    rewrite <- Heq in Hlb.
    set (l := _ :: _) in Hla, Hlb.
    assert (Hnd : NoDup l.*1) by (apply (bool_decide_unpack _); vm_compute; exact I).
    apply list_elem_of_lookup_2 in Hla, Hlb.
    apply (elem_of_list_to_map (M := gmap string) _ _ _ Hnd) in Hla, Hlb.
    congruence.
  - intros name rc Hin.
    assert (Hall : Forall (fun p => ReturnCode_String p.2 = "UNKNOWN" <-> p.1 = "BadName")
                          returnCodes).
    { unfold returnCodes.
      repeat (constructor;
              [cbn; split; intros H; first [discriminate H | reflexivity] |]).
      constructor. }
    exact (proj1 (Forall_forall _ _) Hall _ Hin).
Qed.

(** ** Record types and their mnemonics *)

Lemma map_range_elem (iter : list (string * Z)) name rr :
  map_range rrNameToInt iter ->
  (name, rr) ∈ iter <-> rrNameToInt !! name = Some rr.
Proof.
  unfold map_range. intros Hiter. rewrite Hiter. apply elem_of_map_to_list.
Qed.

Lemma range_find_Some rr name iter :
  (name, rr) ∈ iter ->
  (forall k, (k, rr) ∈ iter -> k = name) ->
  range_find rr iter = Some name.
Proof.
  induction iter as [| [k v] iter IH]; intros Hin Huniq.
  - now apply elem_of_nil in Hin.
  - cbn. destruct (Z.eqb_spec rr v) as [-> | Hne].
    + f_equal. apply Huniq. left.
    + apply elem_of_cons in Hin as [[= -> ->] | Hin]; [congruence |].
      apply IH; [assumption |]. intros k' Hk'. apply Huniq. now right.
Qed.

Lemma rrNameToInt_inj name name' rr :
  rrNameToInt !! name = Some rr -> rrNameToInt !! name' = Some rr -> name' = name.
Proof.
  intros H H'. apply rrNameToInt_lookup in H, H'.
  pose proof (proj1 (Forall_forall _ _) rrTable_facts _ H) as (Huniq & _).
  apply (proj1 (Forall_forall _ _) Huniq _ H'). reflexivity.
Qed.

(** No mnemonic starts with the byte 'u'. *)
Lemma rrNameToInt_unknown s : rrNameToInt !! String "u" s = None.
Proof.
  destruct (rrNameToInt !! String "u" s) as [x |] eqn:H; [| reflexivity].
  apply rrNameToInt_lookup in H.
  assert (Hall : Forall (fun p => String.get 0 p.1 <> Some "u"%char) rrTable)
    by (apply (bool_decide_unpack _); vm_compute; exact I).
  exfalso. apply (proj1 (Forall_forall _ _) Hall _ H). reflexivity.
Qed.

Lemma RecordType_String_unregistered (iter : list (string * Z)) rr :
  map_range rrNameToInt iter ->
  (forall name, rrNameToInt !! name <> Some rr) ->
  RecordType_String iter rr = "unknown(" +:+ strconv.Itoa rr +:+ ")".
Proof.
  intros Hiter Hrr. unfold RecordType_String.
  rewrite range_find_None; [reflexivity |].
  intros k Hin. apply (Hrr k). now apply (map_range_elem iter).
Qed.

Lemma RecordType_String_mnemonic (iter : list (string * Z)) name rr :
  map_range rrNameToInt iter ->
  rrNameToInt !! name = Some rr ->
  RecordType_String iter rr = name.
Proof.
  intros Hiter Hname. unfold RecordType_String.
  rewrite (range_find_Some rr name); [reflexivity | |].
  - now apply (map_range_elem iter).
  - intros k Hk. apply (map_range_elem iter) in Hk; [| assumption].
    now apply (rrNameToInt_inj name k rr).
Qed.

Lemma registered_dec rr :
  {name | rrNameToInt !! name = Some rr} + {forall name, rrNameToInt !! name <> Some rr}.
Proof.
  destruct (range_find rr rrTable) as [name |] eqn:Hfind.
  - left. exists name. apply rrNameToInt_lookup.
    clear -Hfind. induction rrTable as [| [k v] l IH]; [discriminate |].
    cbn in Hfind. destruct (Z.eqb_spec rr v) as [-> | _].
    + injection Hfind as ->. left.
    + right. now apply IH.
  - right. intros name Hname. apply rrNameToInt_lookup in Hname.
    clear -Hfind Hname. induction rrTable as [| [k v] l IH].
    + now apply elem_of_nil in Hname.
    + cbn in Hfind. destruct (Z.eqb_spec rr v) as [-> | Hne]; [discriminate |].
      apply elem_of_cons in Hname as [[= -> ->] | Hname]; [congruence |].
      now apply IH.
Qed.

(** X2. [RecordType.String] does not depend on the order in which Go ranges
    over the table: two range orders give the same string for every code,
    and for the code of a registered mnemonic that string is the mnemonic,
    which [RecordTypeFromString] maps back to the code. *)
Theorem RecordType_String_order (iter iter' : list (string * Z)) (rr : Z) :
  map_range rrNameToInt iter ->
  map_range rrNameToInt iter' ->
  RecordType_String iter rr = RecordType_String iter' rr /\
  (forall name, rrNameToInt !! name = Some rr ->
                RecordType_String iter rr = name /\
                RecordTypeFromString (RecordType_String iter rr) = rr).
Proof.
  intros Hiter Hiter'. split.
  - destruct (registered_dec rr) as [[name Hname] | Hno].
    + now rewrite (RecordType_String_mnemonic iter name rr),
        (RecordType_String_mnemonic iter' name rr).
    + now rewrite !RecordType_String_unregistered.
  - intros name Hname.
    rewrite (RecordType_String_mnemonic iter name rr) by assumption.
    split; [reflexivity |]. unfold RecordTypeFromString. now rewrite Hname.
Qed.

Lemma RecordType_String_order_witness :
  (map_range rrNameToInt (map_to_list rrNameToInt) /\
   map_range rrNameToInt (reverse (map_to_list rrNameToInt))) /\
  RecordType_String (map_to_list rrNameToInt) MX
  = RecordType_String (reverse (map_to_list rrNameToInt)) MX /\
  RecordType_String (map_to_list rrNameToInt) MX = "MX".
Proof.
  assert (H1 : map_range rrNameToInt (map_to_list rrNameToInt))
    by (unfold map_range; reflexivity).
  assert (H2 : map_range rrNameToInt (reverse (map_to_list rrNameToInt)))
    by (unfold map_range; apply reverse_Permutation).
  destruct (RecordType_String_order _ _ MX H1 H2) as [Heq Hname].
  split; [split; assumption |]. split; [exact Heq |].
  exact (proj1 (Hname "MX" eq_refl)).
Defined.

(** X3. Writing a code with [RecordType.String] and reading the string with
    [RecordTypeFromString] gives the code back exactly for the registered
    codes and for -1: the string "unknown(N)" of any other code is read
    as -1. *)
Theorem RecordTypeFromString_String (iter : list (string * Z)) (rr : Z) :
  map_range rrNameToInt iter ->
  (RecordTypeFromString (RecordType_String iter rr) = rr <->
   (exists name, rrNameToInt !! name = Some rr) \/ rr = -1) /\
  ((forall name, rrNameToInt !! name <> Some rr) ->
   RecordTypeFromString (RecordType_String iter rr) = -1).
Proof.
  intros Hiter.
  assert (Hunk : (forall name, rrNameToInt !! name <> Some rr) ->
                 RecordTypeFromString (RecordType_String iter rr) = -1).
  { intros Hno. rewrite RecordType_String_unregistered by assumption.
    unfold RecordTypeFromString.
    change ("unknown(" +:+ strconv.Itoa rr +:+ ")")
      with (String "u" ("nknown(" +:+ strconv.Itoa rr +:+ ")")).
    now rewrite rrNameToInt_unknown. }
  split; [| exact Hunk].
  destruct (registered_dec rr) as [[name Hname] | Hno].
  - rewrite (RecordType_String_mnemonic iter name rr) by assumption.
    unfold RecordTypeFromString. rewrite Hname. split; [eauto | reflexivity].
  - rewrite (Hunk Hno). split.
    + intros <-. now right.
    + intros [[name Hname] | ->]; [now apply Hno in Hname | reflexivity].
Qed.

Lemma RecordTypeFromString_String_witness :
  map_range rrNameToInt (map_to_list rrNameToInt) /\
  (forall name, rrNameToInt !! name <> Some 65) /\
  RecordTypeFromString (RecordType_String (map_to_list rrNameToInt) 65) = -1.
Proof.
  assert (H1 : map_range rrNameToInt (map_to_list rrNameToInt))
    by (unfold map_range; reflexivity).
  assert (Hno : forall name, rrNameToInt !! name <> Some 65).
  { intros name Hname. apply rrNameToInt_lookup in Hname.
    assert (Hcodes : Forall (fun p => p.2 <> 65) rrTable)
      by (apply (bool_decide_unpack _); vm_compute; exact I).
    apply (proj1 (Forall_forall _ _) Hcodes _ Hname). reflexivity. }
  split; [exact H1 |]. split; [exact Hno |].
  exact (proj2 (RecordTypeFromString_String _ 65 H1) Hno).
Defined.

(** ** [RecordType.UnmarshalJSON] *)

Lemma UnmarshalJSON_quoted rr name :
  name <> EmptyString ->
  UnmarshalJSON rr (quoted name) =
  match rrNameToInt !! name with
  | None => (rr, Some (errorString "unknown record type"))
  | Some x => (x, None)
  end.
Proof.
  intros Hne. unfold UnmarshalJSON.
  rewrite quoted_inner, quoted_last, quoted_length.
  destruct name as [| c name]; [congruence |]. reflexivity.
Qed.

(** X4. When [UnmarshalJSON] returns an error the receiver keeps its value;
    when it returns none, the value it stores depends on the bytes alone,
    not on what the receiver held. *)
Theorem UnmarshalJSON_receiver (rr : Z) (b : string) :
  (forall rr' e, UnmarshalJSON rr b = (rr', Some e) -> rr' = rr) /\
  (forall x, UnmarshalJSON rr b = (x, None) ->
             forall rr2, UnmarshalJSON rr2 b = (x, None)).
Proof.
  unfold UnmarshalJSON.
  destruct (String.length b <? 1)%nat; [split; intros; congruence |].
  destruct (bool_decide _ && bool_decide _).
  - destruct (String.length b <? 3)%nat; [split; intros; congruence |].
    destruct (rrNameToInt !! _); split; intros; congruence.
  - destruct (json.Unmarshal_int b 0) as [x []]; split; intros; congruence.
Qed.

(** X5. A code written by [RecordType.String] and put between double quotes
    is decoded by [UnmarshalJSON] to the same code when a mnemonic is
    registered for it, and is an error otherwise. *)
Theorem UnmarshalJSON_String (iter : list (string * Z)) (rr0 rr : Z) :
  map_range rrNameToInt iter ->
  ((exists name, rrNameToInt !! name = Some rr) ->
   UnmarshalJSON rr0 (quoted (RecordType_String iter rr)) = (rr, None)) /\
  ((forall name, rrNameToInt !! name <> Some rr) ->
   UnmarshalJSON rr0 (quoted (RecordType_String iter rr))
   = (rr0, Some (errorString "unknown record type"))).
Proof.
  intros Hiter. split.
  - intros [name Hname].
    rewrite (RecordType_String_mnemonic iter name rr) by assumption.
    rewrite UnmarshalJSON_quoted, Hname; [reflexivity |].
    intros ->. discriminate.
  - intros Hno. rewrite RecordType_String_unregistered by assumption.
    change ("unknown(" +:+ strconv.Itoa rr +:+ ")")
      with (String "u" ("nknown(" +:+ strconv.Itoa rr +:+ ")")).
    rewrite UnmarshalJSON_quoted by discriminate.
    now rewrite rrNameToInt_unknown.
Qed.

Lemma UnmarshalJSON_String_witness :
  map_range rrNameToInt (map_to_list rrNameToInt) /\
  (exists name, rrNameToInt !! name = Some TXT) /\
  UnmarshalJSON 7 (quoted (RecordType_String (map_to_list rrNameToInt) TXT)) = (TXT, None).
Proof.
  assert (H1 : map_range rrNameToInt (map_to_list rrNameToInt))
    by (unfold map_range; reflexivity).
  assert (H2 : exists name, rrNameToInt !! name = Some TXT)
    by (exists "TXT"; reflexivity).
  split; [exact H1 |]. split; [exact H2 |].
  exact (proj1 (UnmarshalJSON_String _ 7 TXT H1) H2).
Defined.

(** ** Questions and URL parameters, in general *)

Lemma parseUintLoop_range s :
  forall n, 0 <= n <= strconv.maxUint64 ->
            0 <= fst (strconv.parseUintLoop s n) <= strconv.maxUint64.
Proof.
  assert (Hm : strconv.maxUint64 = 18446744073709551615) by reflexivity.
  induction s as [| c s IH]; intros n Hn; cbn; [assumption |].
  destruct (is_digit c) eqn:Hc; [| cbn; lia].
  apply is_digit_range in Hc.
  destruct (strconv.cutoff <=? n); [cbn; lia |].
  destruct (Z.ltb_spec strconv.maxUint64 (n * 10 + (byte_val c - 48))); [cbn; lia |].
  apply IH. lia.
Qed.

(** [Atoi] returns an [int], whatever the text. *)
Lemma Atoi_range s :
  strconv.minInt <= fst (strconv.Atoi s) <= strconv.maxInt.
Proof.
  assert (Hmin : strconv.minInt = -9223372036854775808) by reflexivity.
  assert (Hmax : strconv.maxInt = 9223372036854775807) by reflexivity.
  assert (Hcut : 2 ^ (strconv.intSize - 1) = 9223372036854775808) by reflexivity.
  assert (Hm : strconv.maxUint64 = 18446744073709551615) by reflexivity.
  unfold strconv.Atoi, strconv.ParseInt.
  destruct s as [| c s]; [cbn; lia |]. cbv zeta.
  set (s1 := if Ascii.eqb c "+" || Ascii.eqb c "-" then s else String c s).
  assert (Hun : 0 <= fst (strconv.ParseUint s1) <= strconv.maxUint64).
  { unfold strconv.ParseUint. destruct s1; [cbn; lia |].
    apply parseUintLoop_range. lia. }
  destruct (strconv.ParseUint s1) as [un e]. cbn [fst] in Hun. rewrite Hcut.
  assert (Hgo : strconv.minInt
                <= fst (if negb (Ascii.eqb c "-") && (9223372036854775808 <=? un)
                        then (9223372036854775808 - 1, Some strconv.ErrRange)
                        else if Ascii.eqb c "-" && (9223372036854775808 <? un)
                             then (- 9223372036854775808, Some strconv.ErrRange)
                             else (if Ascii.eqb c "-" then - un else un, None))
                <= strconv.maxInt).
  { destruct (Ascii.eqb c "-"); cbn [negb andb].
    - destruct (Z.ltb_spec 9223372036854775808 un); cbn [fst]; lia.
    - destruct (Z.leb_spec 9223372036854775808 un); cbn [fst]; lia. }
  destruct e as [[] |]; [cbn; lia | exact Hgo | exact Hgo].
Qed.

Lemma QuestionFromValues_Type v :
  Type_ (QuestionFromValues v) = Z.max 1 (fst (strconv.Atoi (url.Get v "type"))).
Proof.
  unfold QuestionFromValues. cbn [Type_].
  destruct (Z.ltb_spec (fst (strconv.Atoi (url.Get v "type"))) 1); lia.
Qed.

(** The round trip for every type an [int] can hold. *)
Lemma QuestionFromValues_Values_max q :
  Type_ q <= strconv.maxInt ->
  QuestionFromValues (Values q) =
  {| Name := Name q; Type_ := Z.max 1 (Type_ q);
     DisableDNSSEC := DisableDNSSEC q; EDNSClientSubnet := EDNSClientSubnet q |}.
Proof.
  intros Hmax. unfold QuestionFromValues. cbn [Name Type_ EDNSClientSubnet].
  rewrite Get_Values_name, Get_Values_type, Get_Values_cd, Get_Values_subnet.
  assert (Ht : (let rr := fst (strconv.Atoi (if 0 <? Type_ q
                                             then strconv.Itoa (Type_ q) else "1")) in
                if rr <? 1 then 1 else rr) = Z.max 1 (Type_ q)).
  { destruct (Z.ltb_spec 0 (Type_ q)).
    - rewrite Atoi_Itoa by (unfold strconv.minInt; cbn; lia). cbn [fst].
      cbv zeta. destruct (Z.ltb_spec (Type_ q) 1); lia.
    - cbv zeta. replace (fst (strconv.Atoi "1")) with 1 by reflexivity.
      change (1 <? 1) with false. cbv iota. lia. }
  cbv zeta in Ht. rewrite Ht.
  destruct (DisableDNSSEC q); reflexivity.
Qed.

(** X6. The Question that [QuestionFromValues] builds always has a type
    between 1 and the largest [int], whatever the parameters hold. *)
Theorem QuestionFromValues_Type_range (v : url.Values) :
  1 <= Type_ (QuestionFromValues v) <= strconv.maxInt.
Proof.
  rewrite QuestionFromValues_Type.
  pose proof (Atoi_range (url.Get v "type")) as H.
  assert (Hmax : strconv.maxInt = 9223372036854775807) by reflexivity.
  lia.
Qed.

(** X7. Reading back the parameters of a Question whose type is 0 or
    negative gives the same Question with type 1 (A): the other three
    fields survive, the type does not. *)
Theorem QuestionFromValues_Values_nonpositive (q : Question) :
  Type_ q <= 0 ->
  QuestionFromValues (Values q) =
  {| Name := Name q; Type_ := A;
     DisableDNSSEC := DisableDNSSEC q; EDNSClientSubnet := EDNSClientSubnet q |} /\
  url.Get (Values q) "type" = "1".
Proof.
  intros Hq. split.
  - rewrite QuestionFromValues_Values_max
      by (assert (strconv.maxInt = 9223372036854775807) by reflexivity; lia).
    replace (Z.max 1 (Type_ q)) with A by (unfold A; lia). reflexivity.
  - rewrite Get_Values_type. destruct (Z.ltb_spec 0 (Type_ q)); [lia | reflexivity].
Qed.

Lemma QuestionFromValues_Values_nonpositive_witness :
  -1 <= 0 /\
  QuestionFromValues (Values {| Name := "example.org."; Type_ := -1;
                                DisableDNSSEC := true; EDNSClientSubnet := "" |})
  = {| Name := "example.org."; Type_ := A;
       DisableDNSSEC := true; EDNSClientSubnet := "" |}.
Proof.
  split; [discriminate |].
  refine (proj1 (QuestionFromValues_Values_nonpositive
                   {| Name := "example.org."; Type_ := -1;
                      DisableDNSSEC := true; EDNSClientSubnet := "" |} _)).
  discriminate.
Defined.

(** X8. Reading parameters, writing the Question and reading it again gives
    the Question of the first reading: whatever [QuestionFromValues] builds
    survives the round trip through [Values]. *)
Theorem QuestionFromValues_idempotent (v : url.Values) :
  QuestionFromValues (Values (QuestionFromValues v)) = QuestionFromValues v.
Proof.
  pose proof (QuestionFromValues_Type_range v) as [Hlo Hhi].
  rewrite QuestionFromValues_Values_max by assumption.
  rewrite Z.max_r by assumption.
  now destruct (QuestionFromValues v).
Qed.

(** X9. [Question.Values] always writes the keys "name" and "type", writes
    "cd" exactly when DNSSEC is disabled and "edns_client_subnet" exactly
    when the subnet is not empty, writes no other key, and gives every key
    it writes one value. *)
Theorem Values_keys (q : Question) (k : string) :
  (is_Some (Values q !! k) <->
   k = "name" \/ k = "type" \/
   (k = "cd" /\ DisableDNSSEC q = true) \/
   (k = "edns_client_subnet" /\ EDNSClientSubnet q <> EmptyString)) /\
  (forall vs, Values q !! k = Some vs -> length vs = 1%nat).
Proof.
  unfold Values.
  destruct (String.eqb_spec (EDNSClientSubnet q) EmptyString) as [He | He];
    destruct (DisableDNSSEC q); destruct (0 <? Type_ q); cbn [negb];
    (destruct (decide (k = "name")) as [-> | Hn];
     [| destruct (decide (k = "type")) as [-> | Ht];
        [| destruct (decide (k = "cd")) as [-> | Hc];
           [| destruct (decide (k = "edns_client_subnet")) as [-> | Hs]]]]);
    simplify_map_eq;
    (split; [| intros vs [= <-]; reflexivity]);
    rewrite ?is_Some_alt; intuition (try congruence; eauto).
Qed.

(** ** Fully qualified names, in general *)

Lemma prefix_app (a b : string) : String.prefix a (a +:+ b) = true.
Proof. apply prefix_correct, substring_prefix. Qed.

Lemma IsFQDN_FQDN name : name <> EmptyString -> IsFQDN (FQDN name) = true.
Proof.
  intros Hne. unfold FQDN. destruct (IsFQDN name) eqn:Hfq; cbn [negb]; [assumption |].
  apply IsFQDN_true. split; [| apply last_byte_snoc].
  rewrite length_app. destruct name; [congruence | cbn; lia].
Qed.

(** X10. [FQDN] only ever appends: the name is a prefix of the result, of
    the same length or one byte longer; the result is the name itself
    exactly when [IsFQDN] accepts the name; and for every name, the empty
    one included, two applications of [FQDN] give a name that [IsFQDN]
    accepts and that [FQDN] leaves as it is. *)
Theorem FQDN_appends (name : string) :
  String.prefix name (FQDN name) = true /\
  (String.length name <= String.length (FQDN name) <= S (String.length name))%nat /\
  (FQDN name = name <-> IsFQDN name = true) /\
  IsFQDN (FQDN (FQDN name)) = true /\
  FQDN (FQDN (FQDN name)) = FQDN (FQDN name).
Proof.
  assert (Hlen : FQDN name = name <-> IsFQDN name = true).
  { unfold FQDN. destruct (IsFQDN name); cbn [negb]; split; try congruence.
    intros H. apply (f_equal String.length) in H.
    rewrite length_app in H. cbn in H. lia. }
  assert (Htwice : IsFQDN (FQDN (FQDN name)) = true).
  { destruct name as [| c name]; [reflexivity |].
    apply IsFQDN_FQDN. unfold FQDN.
    destruct (IsFQDN (String c name)); discriminate. }
  split; [| split; [| split; [exact Hlen | split; [exact Htwice |]]]].
  - unfold FQDN. destruct (IsFQDN name); cbn [negb]; [| apply prefix_app].
    rewrite <- (append_nil_r name) at 2. apply prefix_app.
  - unfold FQDN. destruct (IsFQDN name); cbn [negb]; [lia |].
    rewrite length_app. cbn. lia.
  - unfold FQDN at 1. now rewrite Htwice.
Qed.

(** ** The server, in general *)

Section server_shape.
Import server.

Lemma ServeHTTP_cases (s : Server) (r : http.Request) :
  (exists code, code ∈ [400; 403; 415; 500] /\
                first_failing (validations s r) = Some code /\
                ServeHTTP s r = [WriteHeader code]) \/
  (exists h, first_failing (validations s r) = None /\
             Handler s = Some h /\
             ServeHTTP s r =
             [ Header_Set "Content-Type" "application/dns-json; charset=utf-8";
               WriteHeader 200;
               Encode (match h (QuestionFromValues (url.Query (http.URL r))) with
                       | Some a => a
                       | None => {| Status := ServerFailure;
                                    Truncated := false;
                                    RecursionDesired := false;
                                    RecursionAvailable := false;
                                    DNSSECValidated := false;
                                    DNSSECDisabled := false;
                                    Answer_Question := [];
                                    Answer_Answer := [];
                                    Authority := [];
                                    Additional := [];
                                    Comment := "";
                                    EdnsClientSubnet := "" |}
                       end) ]).
Proof.
  unfold validations, ServeHTTP. cbn [first_failing].
  destruct (String.eqb (http.Method r) http.MethodGet); cbn [negb];
    [| left; exists 400; split; [set_solver | now split]].
  destruct (String.eqb (http.Get (http.Header r) "Accept") ""); cbn [negb];
    [left; exists 400; split; [set_solver | now split] |].
  destruct (strings.HasPrefix _ _); cbn [negb];
    [left; exists 415; split; [set_solver | now split] |].
  destruct (Handler s) as [h |];
    [| left; exists 500; split; [set_solver | now split]].
  rewrite bool_decide_eq_true_2 by eauto.
  destruct (String.eqb (url.Scheme (http.URL r)) "https"), (AllowHTTP s);
    cbn [negb andb orb];
    try (destruct (String.eqb (Name _) ""); cbn [negb];
         [left; exists 400; split; [set_solver | now split]
         | right; exists h; now repeat split]).
  left; exists 403; split; [set_solver | now split].
Qed.

(** X11. Every reply of [ServeHTTP] has one of two shapes: a single
    [WriteHeader] with 400, 403, 415 or 500 and nothing else (no header,
    no body), or the Content-Type header "application/dns-json;
    charset=utf-8", then [WriteHeader] 200, then one encoded Answer.  So
    the status is written exactly once, and a body and a Content-Type are
    sent exactly with status 200. *)
Theorem ServeHTTP_reply_shape (s : Server) (r : http.Request) :
  (exists code, code ∈ [400; 403; 415; 500] /\ ServeHTTP s r = [WriteHeader code]) \/
  (exists a, ServeHTTP s r =
             [ Header_Set "Content-Type" "application/dns-json; charset=utf-8";
               WriteHeader 200;
               Encode a ]).
Proof.
  destruct (ServeHTTP_cases s r) as [(code & Hin & _ & H) | (h & _ & _ & H)].
  - left. eauto.
  - right. eauto.
Qed.

(** X12. When the six validations pass and the handler returns an Answer,
    the reply carries that Answer: Content-Type, status 200, and the
    handler's Answer for the Question read from the URL parameters, as it
    is. *)
Theorem ServeHTTP_answer (s : Server) (r : http.Request) (h : HandlerFunc) (a : Answer) :
  first_failing (validations s r) = None ->
  Handler s = Some h ->
  h (QuestionFromValues (url.Query (http.URL r))) = Some a ->
  ServeHTTP s r =
  [ Header_Set "Content-Type" "application/dns-json; charset=utf-8";
    WriteHeader 200;
    Encode a ].
Proof.
  intros Hpass Hh Ha.
  destruct (ServeHTTP_cases s r) as [(code & _ & Hfail & _) | (h' & _ & Hh' & H)].
  - congruence.
  - rewrite Hh in Hh'. injection Hh' as <-. now rewrite Ha in H.
Qed.

Lemma ServeHTTP_answer_witness :
  let a := {| Status := Success; Truncated := false; RecursionDesired := true;
              RecursionAvailable := true; DNSSECValidated := false;
              DNSSECDisabled := false; Answer_Question := [];
              Answer_Answer := [ {| Record_Name := "example.org."; Record_Type := A;
                                    Record_TTL := 300; Record_Data := "127.0.0.1" |} ];
              Authority := []; Additional := []; Comment := "";
              EdnsClientSubnet := "" |} in
  let s := {| Handler := Some (fun _ => Some a); AllowHTTP := true |} in
  let r := {| http.Method := "GET";
              http.URL := {| url.Scheme := "http"; url.User := None;
                             url.Host := "localhost"; url.Path := "/";
                             url.Query := {[ "name" := ["example.org."] ]} |};
              http.Header := {[ "Accept" := ["application/json"] ]};
              http.Host := "localhost" |} in
  first_failing (validations s r) = None /\
  body (ServeHTTP s r) = Some a.
Proof.
  intros a s r.
  assert (Hpass : first_failing (validations s r) = None) by (vm_compute; reflexivity).
  split; [exact Hpass |].
  rewrite (ServeHTTP_answer s r (fun _ => Some a) a Hpass eq_refl eq_refl).
  reflexivity.
Defined.

(** X13. The server turns down every request the client of this package
    builds: the client sends "Accept: application/dns-json", and the third
    validation of [ServeHTTP] answers such a request with 415, for every
    server configuration, address and Question. *)
Theorem ServeHTTP_client_request (s : Server) (addr : url.URL) (q : Question) :
  ServeHTTP s (client.request addr q) = [WriteHeader 415].
Proof.
  unfold ServeHTTP.
  change (http.Method (client.request addr q)) with http.MethodGet.
  change (http.Get (http.Header (client.request addr q)) "Accept")
    with "application/dns-json".
  reflexivity.
Qed.

End server_shape.

(** ** The client, in general *)

Section client_outcomes.
Import client.

Variable HTTPClientRef : Type.
Variable DefaultClient : HTTPClientRef.
Variable HTTPClient_Do : HTTPClientRef -> http.Request -> http.Response + error.
Variable unmarshalJSON : string -> Answer + error.

Abbreviation Client := (Client HTTPClientRef).
Abbreviation Do := (Do HTTPClientRef DefaultClient HTTPClient_Do unmarshalJSON).
Abbreviation transport := (transport HTTPClientRef DefaultClient).

Lemma Do_fails (c : Client) (q : Question) (t1 t2 : Z) :
  passes c = false ->
  res (Do c q t1 t2) = None /\
  is_Some (err (Do c q t1 t2)) /\
  sent (Do c q t1 t2) = [] /\
  after (Do c q t1 t2) = c.
Proof.
  unfold passes, client.Do. destruct (Addr c) as [addr |]; [| now repeat split].
  intros H. destruct (String.eqb _ _), (AllowHTTP c); try discriminate.
  now repeat split.
Qed.

Lemma Do_runs (c : Client) (q : Question) (t1 t2 : Z) :
  passes c = true ->
  exists addr,
    Addr c = Some addr /\
    sent (Do c q t1 t2) = [request addr q] /\
    after (Do c q t1 t2) =
      {| Addr := Addr c; HTTPClient := Some (transport c); AllowHTTP := AllowHTTP c |} /\
    (res (Do c q t1 t2), err (Do c q t1 t2)) =
      match HTTPClient_Do (transport c) (request addr q) with
      | inr e => (None, Some (if isNetTimeout e
                              then ClientError "server timeout" (Some e) else e))
      | inl w =>
          if http.StatusCode w =? http.StatusOK
          then match unmarshalJSON (http.Body w) with
               | inr e => (None, Some e)
               | inl x => (Some x, None)
               end
          else (None, Some (HTTPError (http.StatusCode w)))
      end.
Proof.
  unfold passes, client.Do. destruct (Addr c) as [addr |]; [| discriminate].
  intros H. exists addr. split; [reflexivity |].
  assert (Hpre : negb (String.eqb (url.Scheme addr) "https") && negb (AllowHTTP c) = false)
    by (destruct (String.eqb _ _), (AllowHTTP c); (reflexivity || discriminate)).
  rewrite Hpre.
  destruct (HTTPClient_Do _ _) as [w | e]; [| now repeat split].
  destruct (http.StatusCode w =? http.StatusOK); [| now repeat split].
  destruct (unmarshalJSON _); now repeat split.
Qed.

Lemma Do_res_err (c : Client) (q : Question) (t1 t2 : Z) :
  is_Some (res (Do c q t1 t2)) <-> err (Do c q t1 t2) = None.
Proof.
  destruct (passes c) eqn:Hp.
  - destruct (Do_runs c q t1 t2 Hp) as (addr & _ & _ & _ & Hre).
    destruct (HTTPClient_Do _ _) as [w | e].
    + destruct (http.StatusCode w =? http.StatusOK).
      * destruct (unmarshalJSON _); injection Hre as -> ->;
          split; (eauto || discriminate || (intros [? [=]])).
      * injection Hre as -> ->. split; [intros [? [=]] | discriminate].
    + injection Hre as -> ->. split; [intros [? [=]] | discriminate].
  - destruct (Do_fails c q t1 t2 Hp) as (Hres & [e He] & _ & _).
    rewrite Hres, He. split; [intros [? [=]] | discriminate].
Qed.

(** X14. A call of [Do] returns an Answer or an error, never both and never
    neither; it hands at most one request to the HTTP client (it never
    tries again), and none at all exactly when it fails one of its two
    checks. *)
Theorem Do_answer_or_error (c : Client) (q : Question) (t1 t2 : Z) :
  (is_Some (res (Do c q t1 t2)) <-> err (Do c q t1 t2) = None) /\
  (length (sent (Do c q t1 t2)) <= 1)%nat /\
  (sent (Do c q t1 t2) = [] <-> passes c = false).
Proof.
  split; [apply Do_res_err |].
  destruct (passes c) eqn:Hp.
  - destruct (Do_runs c q t1 t2 Hp) as (addr & _ & -> & _).
    split; [cbn; lia | split; discriminate].
  - destruct (Do_fails c q t1 t2 Hp) as (_ & _ & -> & _).
    split; [cbn; lia | now split].
Qed.

(** X17. The request [Do] sends is a GET to the scheme, user, host and
    path of the configured address, with the Accept header
    "application/dns-json" and the User-Agent of the package; its query
    holds the parameters of the Question and nothing of the query of the
    configured address, and read with [QuestionFromValues] it gives the
    Question back, with type 1 in place of a type below 1. *)
Theorem Do_request (c : Client) (q : Question) (t1 t2 : Z) (addr : url.URL) :
  Addr c = Some addr ->
  passes c = true ->
  Type_ q <= strconv.maxInt ->
  exists r,
    sent (Do c q t1 t2) = [r] /\
    http.Method r = "GET" /\
    url.Scheme (http.URL r) = url.Scheme addr /\
    url.User (http.URL r) = url.User addr /\
    url.Host (http.URL r) = url.Host addr /\
    url.Path (http.URL r) = url.Path addr /\
    http.Host r = url.Host addr /\
    url.Query (http.URL r) = Values q /\
    http.Get (http.Header r) "Accept" = "application/dns-json" /\
    http.Get (http.Header r) "User-Agent" = UserAgent /\
    QuestionFromValues (url.Query (http.URL r)) =
      {| Name := Name q; Type_ := Z.max 1 (Type_ q);
         DisableDNSSEC := DisableDNSSEC q; EDNSClientSubnet := EDNSClientSubnet q |}.
Proof.
  intros Haddr Hp Hq.
  destruct (Do_runs c q t1 t2 Hp) as (addr' & Haddr' & Hsent & _).
  rewrite Haddr in Haddr'. injection Haddr' as <-.
  exists (request addr q). split; [exact Hsent |].
  repeat (split; [reflexivity |]).
  cbn. now apply QuestionFromValues_Values_max.
Qed.

(** X15. When the HTTP client answers with a status other than 200, [Do]
    returns no Answer and the error [HTTPError] of that status, whose text
    is "HTTP Error N"; when it answers with status 200, [Do] returns what
    decoding the body gives: the Answer and no error, or the error of the
    decoder as it is. *)
Theorem Do_response (c : Client) (q : Question) (t1 t2 : Z)
        (addr : url.URL) (w : http.Response) :
  Addr c = Some addr ->
  passes c = true ->
  HTTPClient_Do (transport c) (request addr q) = inl w ->
  (http.StatusCode w <> 200 ->
   res (Do c q t1 t2) = None /\
   err (Do c q t1 t2) = Some (HTTPError (http.StatusCode w)) /\
   Error (HTTPError (http.StatusCode w))
   = "HTTP Error " +:+ strconv.Itoa (http.StatusCode w)) /\
  (http.StatusCode w = 200 ->
   (forall x, unmarshalJSON (http.Body w) = inl x ->
              res (Do c q t1 t2) = Some x /\ err (Do c q t1 t2) = None) /\
   (forall e, unmarshalJSON (http.Body w) = inr e ->
              res (Do c q t1 t2) = None /\ err (Do c q t1 t2) = Some e)).
Proof.
  intros Haddr Hp Hw.
  destruct (Do_runs c q t1 t2 Hp) as (addr' & Haddr' & _ & _ & Hre).
  rewrite Haddr in Haddr'. injection Haddr' as <-. rewrite Hw in Hre.
  split.
  - intros Hcode. apply Z.eqb_neq in Hcode.
    change http.StatusOK with 200 in Hre. rewrite Hcode in Hre.
    injection Hre as -> ->. now repeat split.
  - intros Hcode. rewrite Hcode in Hre. change (200 =? http.StatusOK) with true in Hre.
    split; intros x Hx; rewrite Hx in Hre; injection Hre as -> ->; now split.
Qed.

(** X16. The one field [Do] may write does not change what later calls do:
    a call on the Client that a first call left behind returns the Answer,
    the error and the request of the same call on the untouched Client, and
    leaves the Client as the first call left it. *)
Theorem Do_after_stable (c : Client) (q q' : Question) (t1 t2 t3 t4 : Z) :
  res (Do (after (Do c q t1 t2)) q' t3 t4) = res (Do c q' t3 t4) /\
  err (Do (after (Do c q t1 t2)) q' t3 t4) = err (Do c q' t3 t4) /\
  sent (Do (after (Do c q t1 t2)) q' t3 t4) = sent (Do c q' t3 t4) /\
  after (Do (after (Do c q t1 t2)) q' t3 t4) = after (Do c q t1 t2).
Proof.
  destruct (passes c) eqn:Hp;
    [| destruct (Do_fails c q t1 t2 Hp) as (_ & _ & _ & ->);
       destruct (Do_fails c q' t3 t4 Hp) as (_ & _ & _ & ->); now repeat split].
  destruct (Do_runs c q t1 t2 Hp) as (addr & Haddr & _ & Hafter & _).
  destruct (Do_runs c q' t3 t4 Hp) as (addr' & Haddr' & Hsent' & _ & Hre').
  rewrite Haddr in Haddr'. injection Haddr' as <-.
  set (c1 := after (Do c q t1 t2)) in *.
  assert (Hp1 : passes c1 = true) by (rewrite Hafter; exact Hp).
  assert (Ht1 : transport c1 = transport c) by (rewrite Hafter; reflexivity).
  destruct (Do_runs c1 q' t3 t4 Hp1) as (addr1 & Haddr1 & Hsent1 & Hafter1 & Hre1).
  assert (addr1 = addr) as -> by (rewrite Hafter in Haddr1; cbn in Haddr1; congruence).
  rewrite Ht1 in Hre1, Hafter1. rewrite <- Hre' in Hre1.
  injection Hre1 as Hres Herr.
  split; [exact Hres |]. split; [exact Herr |]. split; [congruence |].
  rewrite Hafter1, Hafter. reflexivity.
Qed.

End client_outcomes.

Lemma Do_request_witness :
  let addr := {| url.Scheme := "http"; url.User := None;
                 url.Host := "localhost:8053";
                 url.Path := "/dns-query"; url.Query := {[ "ct" := ["x"] ]} |} in
  let c := {| client.Addr := Some addr; client.HTTPClient := Some tt;
              client.AllowHTTP := true |} in
  let q := {| Name := "example.org."; Type_ := 0;
              DisableDNSSEC := true; EDNSClientSubnet := EmptyString |} in
  let out := client.Do unit tt (fun _ _ => inr JSONError) (fun _ => inr JSONError)
               c q 0 5 in
  (passes c = true /\ Type_ q <= strconv.maxInt) /\
  exists r, client.sent out = [r] /\
            url.Query (http.URL r) !! "ct" = None /\
            Type_ (QuestionFromValues (url.Query (http.URL r))) = A.
Proof.
  intros addr c q out.
  assert (Hp : passes c = true) by reflexivity.
  assert (Hq : Type_ q <= strconv.maxInt) by discriminate.
  split; [split; assumption |].
  destruct (Do_request unit tt (fun _ _ => inr JSONError) (fun _ => inr JSONError)
              c q 0 5 addr eq_refl Hp Hq)
    as (r & Hsent & _ & _ & _ & _ & _ & _ & Hquery & _ & _ & Hback).
  exists r. split; [exact Hsent |]. split.
  - rewrite Hquery. reflexivity.
  - rewrite Hback. reflexivity.
Defined.

Lemma Do_response_witness :
  let addr := {| url.Scheme := "https"; url.User := None;
                 url.Host := "cloudflare-dns.com";
                 url.Path := "/dns-query"; url.Query := ∅ |} in
  let c := {| client.Addr := Some addr; client.HTTPClient := Some tt;
              client.AllowHTTP := false |} in
  let q := {| Name := "example.org."; Type_ := A;
              DisableDNSSEC := false; EDNSClientSubnet := EmptyString |} in
  let w := {| http.StatusCode := 503; http.Body := "try later" |} in
  let out := client.Do unit tt (fun _ _ => inl w) (fun _ => inr JSONError) c q 0 5 in
  (passes c = true /\ http.StatusCode w <> 200) /\
  client.err out = Some (HTTPError 503) /\
  client.Error (HTTPError 503) = "HTTP Error 503".
Proof.
  intros addr c q w out.
  assert (Hp : passes c = true) by reflexivity.
  assert (Hcode : http.StatusCode w <> 200) by discriminate.
  destruct (Do_response unit tt (fun _ _ => inl w) (fun _ => inr JSONError)
              c q 0 5 addr w eq_refl Hp eq_refl) as [Hbad _].
  destruct (Hbad Hcode) as (_ & Herr & Htext).
  split; [split; assumption |]. split; [exact Herr | exact Htext].
Defined.

Example Do_after_stable_example :
  let addr := {| url.Scheme := "https"; url.User := None;
                 url.Host := "cloudflare-dns.com";
                 url.Path := "/dns-query"; url.Query := ∅ |} in
  let c := {| client.Addr := Some addr; client.HTTPClient := None;
              client.AllowHTTP := false |} in
  let q := {| Name := "example.org."; Type_ := A;
              DisableDNSSEC := false; EDNSClientSubnet := EmptyString |} in
  let Do := client.Do nat 0%nat
              (fun _ _ => inl {| http.StatusCode := 503; http.Body := EmptyString |})
              (fun _ => inr JSONError) in
  client.after (Do (client.after (Do c q 0 5)) q 6 9) = client.after (Do c q 0 5) /\
  client.after (Do c q 0 5) <> c.
Proof. split; [reflexivity | discriminate]. Qed.

(** ** The package-level client *)

Section package_client.

Variable HTTPClientRef : Type.
Variable http_DefaultClient : HTTPClientRef.
Variable HTTPClient_Do : HTTPClientRef -> http.Request -> http.Response + error.
Variable unmarshalJSON : string -> Answer + error.

Abbreviation DefaultClient := (pkg.DefaultClient HTTPClientRef http_DefaultClient).
Abbreviation pkg_Do :=
  (pkg.Do HTTPClientRef http_DefaultClient HTTPClient_Do unmarshalJSON).
Abbreviation after_calls :=
  (pkg.after_calls HTTPClientRef http_DefaultClient HTTPClient_Do unmarshalJSON).

(** X18. The package-level [Do] never fails the checks before the request:
    every call sends one GET request to https://dns.google.com/resolve
    through [http.DefaultClient]; and however many calls are made,
    [DefaultClient] keeps the value it was initialised with. *)
Theorem DefaultClient_Do (qs : list (Question * Z * Z)) (q : Question) (t1 t2 : Z) :
  after_calls DefaultClient qs = DefaultClient /\
  client.transport HTTPClientRef http_DefaultClient DefaultClient = http_DefaultClient /\
  exists r,
    client.sent (pkg_Do DefaultClient q t1 t2) = [r] /\
    http.Method r = "GET" /\
    url.Scheme (http.URL r) = "https" /\
    url.Host (http.URL r) = "dns.google.com" /\
    url.Path (http.URL r) = "/resolve" /\
    url.Query (http.URL r) = Values q.
Proof.
  split; [| split; [reflexivity |]].
  - induction qs as [| [[q0 t3] t4] qs IH]; [reflexivity |].
    cbn [pkg.after_calls].
    replace (client.after (pkg_Do DefaultClient q0 t3 t4)) with DefaultClient;
      [exact IH |].
    unfold pkg.Do, client.Do. cbn.
    destruct (HTTPClient_Do _ _) as [w | e]; [| reflexivity].
    destruct (http.StatusCode w =? http.StatusOK); [| reflexivity].
    now destruct (unmarshalJSON _).
  - exists (client.request
              {| url.Scheme := "https"; url.User := None; url.Host := "dns.google.com";
                 url.Path := "/resolve"; url.Query := ∅ |} q).
    split; [| now repeat split].
    unfold pkg.Do, client.Do. cbn.
    destruct (HTTPClient_Do _ _) as [w | e]; [| reflexivity].
    destruct (http.StatusCode w =? http.StatusOK); [| reflexivity].
    now destruct (unmarshalJSON _).
Qed.

End package_client.

(** ** The command *)

Section command.
Import cmd.

Variable url_Parse : string -> url.URL + string.
Variable HTTPClient_Do : option Z -> http.Request -> http.Response + error.
Variable unmarshalJSON : string -> Answer + error.
Variable json_Encode : option Answer -> string.
Variable Duration_String : Z -> string.

Abbreviation main :=
  (main url_Parse HTTPClient_Do unmarshalJSON json_Encode Duration_String).
Abbreviation Do := (client.Do (option Z) None HTTPClient_Do unmarshalJSON).

(** The Client [main] builds for the flags and the parsed address. *)
Lemma main_two_args (fl : Flags) (rtype name : string) (t1 t2 : Z) (addr : url.URL) :
  url_Parse (Server fl) = inl addr ->
  let c := {| client.Addr := Some addr;
              client.HTTPClient := Some (Some (Timeout fl));
              client.AllowHTTP := AllowHTTP fl |} in
  let out := Do c (question rtype name) t1 t2 in
  requests (main fl [rtype; name] t1 t2) = client.sent out /\
  (forall e, client.err out = Some e ->
             main fl [rtype; name] t1 t2 =
             runtimeError ("could not query server: " +:+ client.Error e)
                          (client.sent out)) /\
  (client.err out = None -> exit (main fl [rtype; name] t1 t2) = 0).
Proof.
  intros Hparse c out. unfold cmd.main. rewrite Hparse. fold c. fold out.
  pose proof (Do_res_err (option Z) None HTTPClient_Do unmarshalJSON c (question rtype name) t1 t2)
    as Hre. fold out in Hre.
  destruct (client.err out) as [e |].
  - split; [reflexivity |]. split; [intros ? [= <-]; reflexivity | discriminate].
  - destruct (proj2 Hre eq_refl) as [a Ha]. rewrite Ha.
    split; [now destruct (JSON fl) |].
    split; [discriminate | now destruct (JSON fl)].
Qed.


(** The codes of the table are positive. *)
Lemma rrNameToInt_positive name rr : rrNameToInt !! name = Some rr -> 0 < rr.
Proof.
  intros H. apply rrNameToInt_lookup in H.
  assert (Hall : Forall (fun p => 0 < p.2) rrTable)
    by (apply (bool_decide_unpack _); vm_compute; exact I).
  exact (proj1 (Forall_forall _ _) Hall _ H).
Qed.

(** X20. The command asks for the record type it is given only when that is
    a registered mnemonic in upper case: the request then carries the code
    in decimal as its "type" parameter.  For any other first argument (a
    lower-case mnemonic, a number) the request carries "type=1", the
    type A. *)
Theorem main_record_type (fl : Flags) (rtype name : string) (t1 t2 : Z) (addr : url.URL) :
  url_Parse (Server fl) = inl addr ->
  url.Scheme addr = "https" \/ AllowHTTP fl = true ->
  exists r,
    requests (main fl [rtype; name] t1 t2) = [r] /\
    url.Get (url.Query (http.URL r)) "name" = name /\
    url.Get (url.Query (http.URL r)) "type" =
      match rrNameToInt !! rtype with
      | Some rr => strconv.Itoa rr
      | None => "1"
      end.
Proof.
  intros Hparse Hok.
  destruct (main_two_args fl rtype name t1 t2 addr Hparse) as (Hreq & _ & _).
  cbv zeta in Hreq. rewrite Hreq.
  set (c := {| client.Addr := Some addr;
               client.HTTPClient := Some (Some (Timeout fl));
               client.AllowHTTP := AllowHTTP fl |}).
  assert (Hp : passes c = true).
  { unfold passes. cbn. destruct Hok as [-> | ->]; [reflexivity | apply orb_true_r]. }
  destruct (Do_runs (option Z) None HTTPClient_Do unmarshalJSON c (question rtype name) t1 t2 Hp)
    as (addr' & [= <-] & Hsent & _).
  exists (client.request addr (question rtype name)).
  split; [exact Hsent |]. cbn [client.request http.URL url.Query].
  rewrite Get_Values_name, Get_Values_type. split; [reflexivity |].
  cbn [question Type_]. unfold RecordTypeFromString.
  destruct (rrNameToInt !! rtype) as [rr |] eqn:Hrr; [| reflexivity].
  apply rrNameToInt_positive in Hrr.
  destruct (Z.ltb_spec 0 rr); [reflexivity | lia].
Qed.

(** X21. What the command prints for the errors of [Do], always with exit
    status 1: "https required" when the scheme of the server URL is not
    "https" and plaintext is not allowed, without any request sent; and
    "HTTP Error N" when the server answers with a status N other than
    200. *)
Theorem main_runtime_errors (fl : Flags) (rtype name : string) (t1 t2 : Z) (addr : url.URL) :
  url_Parse (Server fl) = inl addr ->
  (url.Scheme addr <> "https" -> AllowHTTP fl = false ->
   main fl [rtype; name] t1 t2 =
   {| stdout := "runtime error: could not query server: https required" +:+ nl;
      exit := 1;
      requests := [] |}) /\
  (forall w,
      url.Scheme addr = "https" \/ AllowHTTP fl = true ->
      HTTPClient_Do (Some (Timeout fl)) (client.request addr (question rtype name)) = inl w ->
      http.StatusCode w <> 200 ->
      main fl [rtype; name] t1 t2 =
      {| stdout := "runtime error: could not query server: HTTP Error "
                   +:+ strconv.Itoa (http.StatusCode w) +:+ nl;
         exit := 1;
         requests := [client.request addr (question rtype name)] |}).
Proof.
  intros Hparse.
  destruct (main_two_args fl rtype name t1 t2 addr Hparse) as (_ & Herr & _).
  cbv zeta in Herr.
  set (c := {| client.Addr := Some addr;
               client.HTTPClient := Some (Some (Timeout fl));
               client.AllowHTTP := AllowHTTP fl |}) in *.
  split.
  - intros Hscheme Hallow.
    assert (Hout : Do c (question rtype name) t1 t2 =
                   {| client.res := None; client.rtt := t2 - t1;
                      client.err := Some (ClientError "https required" None);
                      client.after := c; client.sent := [] |}).
    { unfold client.Do. cbn [client.Addr c client.AllowHTTP].
      apply String.eqb_neq in Hscheme. now rewrite Hscheme, Hallow. }
    rewrite (Herr (ClientError "https required" None)) by now rewrite Hout.
    rewrite Hout. reflexivity.
  - intros w Hok Hw Hcode.
    assert (Hp : passes c = true).
    { unfold passes. cbn. destruct Hok as [-> | ->]; [reflexivity | apply orb_true_r]. }
    destruct (Do_runs (option Z) None HTTPClient_Do unmarshalJSON c (question rtype name) t1 t2 Hp)
      as (addr' & [= <-] & Hsent & _ & Hre).
    change (client.transport (option Z) None c) with (Some (Timeout fl)) in Hre.
    rewrite Hw in Hre. apply Z.eqb_neq in Hcode.
    change http.StatusOK with 200 in Hre. rewrite Hcode in Hre.
    injection Hre as _ He.
    rewrite (Herr _ He), Hsent. unfold runtimeError. cbn [client.Error].
    now rewrite !append_assoc.
Qed.


End command.

Lemma main_record_type_witness :
  let parse := fun _ : string =>
    inl {| url.Scheme := "https"; url.User := None; url.Host := "dns.google.com";
           url.Path := "/resolve"; url.Query := ∅ |} : url.URL + string in
  let fl := {| cmd.Server := "https://dns.google.com/resolve"; cmd.Timeout := 30;
               cmd.AllowHTTP := false; cmd.JSON := false |} in
  let run := cmd.main parse (fun _ _ => inr (TransportError "no route" None))
               (fun _ => inr JSONError) (fun _ => EmptyString) (fun _ => EmptyString)
               fl ["aaaa"; "example.org."] 0 5 in
  rrNameToInt !! "aaaa" = None /\
  exists r, cmd.requests run = [r] /\
            url.Get (url.Query (http.URL r)) "type" = "1".
Proof.
  intros parse fl run. split; [reflexivity |].
  destruct (main_record_type parse (fun _ _ => inr (TransportError "no route" None))
              (fun _ => inr JSONError) (fun _ => EmptyString) (fun _ => EmptyString)
              fl "aaaa" "example.org." 0 5 _ eq_refl (or_introl eq_refl))
    as (r & Hreq & _ & Htype).
  exists r. split; [exact Hreq | exact Htype].
Defined.

Lemma main_runtime_errors_witness :
  let parse := fun _ : string =>
    inl {| url.Scheme := "http"; url.User := None; url.Host := "localhost";
           url.Path := "/"; url.Query := ∅ |} : url.URL + string in
  let fl := {| cmd.Server := "http://localhost/"; cmd.Timeout := 30;
               cmd.AllowHTTP := false; cmd.JSON := false |} in
  let run := cmd.main parse (fun _ _ => inr (TransportError "no route" None))
               (fun _ => inr JSONError) (fun _ => EmptyString) (fun _ => EmptyString)
               fl ["A"; "example.org."] 0 5 in
  cmd.exit run = 1 /\ cmd.requests run = [] /\
  cmd.stdout run = "runtime error: could not query server: https required" +:+ cmd.nl.
Proof.
  intros parse fl run.
  destruct (main_runtime_errors parse (fun _ _ => inr (TransportError "no route" None))
              (fun _ => inr JSONError) (fun _ => EmptyString) (fun _ => EmptyString)
              fl "A" "example.org." 0 5 _ eq_refl) as [Hplain _].
  assert (Hscheme : "http" <> "https") by discriminate.
  unfold run. rewrite (Hplain Hscheme eq_refl). now repeat split.
Defined.


Example printAnswer_example :
  cmd.printAnswer (fun _ => "5ms")
    {| Status := BadName; Truncated := false; RecursionDesired := true;
       RecursionAvailable := true; DNSSECValidated := false; DNSSECDisabled := false;
       Answer_Question := [];
       Answer_Answer := [ {| Record_Name := "example.org."; Record_Type := 65;
                             Record_TTL := 300; Record_Data := "x" |} ];
       Authority := [];
       Additional := [ {| Record_Name := "ns.example.org."; Record_Type := AAAA;
                          Record_TTL := 60; Record_Data := "::1" |} ];
       Comment := ""; EdnsClientSubnet := "" |} 5
  = "Return Code: UNKNOWN" +:+ cmd.nl
    +:+ "Truncated: false" +:+ cmd.nl
    +:+ "Recursion Desired / Available: true / true" +:+ cmd.nl
    +:+ "DNSSEC Disabled / Validated: false / false" +:+ cmd.nl +:+ cmd.nl
    +:+ "Answer:" +:+ cmd.nl
    +:+ "  example.org.   unknown(65)  300  'x'" +:+ cmd.nl
    +:+ cmd.nl +:+ "Additional:" +:+ cmd.nl
    +:+ "  example.org.  unknown(65)  300  'x'" +:+ cmd.nl
    +:+ cmd.nl +:+ "Query time: 5ms" +:+ cmd.nl.
Proof. vm_compute. reflexivity. Qed.
